(** * Event translation and session recovery of the Claude Agent SDK pattern

    A shallow embedding of [patterns/claude-agent-sdk/agent.py] and
    [patterns/claude-agent-sdk/agents/subagents.py].

    The entrypoint [main] is an asynchronous generator.  It is modelled as a
    function to the list of events it yields, the exception it ends with (if
    any), and the store it leaves behind.  The SDK client, Python's [hash]
    and [json.loads] are collaborators of the program: the first two are
    section variables, the third is a section variable for the general
    theorems and is instantiated by the decoder [Json.loads] for the
    scenarios. *)

From Stdlib Require Import ZArith List String Ascii Bool Lia.
From Stdlib Require Import DecimalString DecimalPos DecimalZ.
Import ListNotations.

Local Open Scope string_scope.
Local Open Scope Z_scope.
Local Open Scope list_scope.

Set Warnings "-register-all".

(** ** Python values *)

(** A float is kept as the decimal literal it was read from; every float of
    this program comes out of a JSON document. *)
Inductive FloatLit : Type :=
| FloatNaN
| FloatInf (negative : bool)
| FloatDec (mantissa exponent : Z).

Inductive PyValue : Type :=
| PyNone
| PyBool (b : bool)
| PyInt (z : Z)
| PyFloat (f : FloatLit)
| PyStr (s : string)
| PyList (items : list PyValue)
| PyDict (entries : list (string * PyValue)).

(** The double quote character, and the string made of it. *)
Definition dquote : ascii := ascii_of_nat 34.
Definition dq : string := String dquote EmptyString.

(** [mantissa * 10 ^ exponent] rounds to zero in binary64 exactly when its
    magnitude is at most [2 ^ -1075], half of the least subnormal. *)
Definition float_is_zero (f : FloatLit) : bool :=
  match f with
  | FloatNaN => false
  | FloatInf _ => false
  | FloatDec m e =>
      if 0 <=? e then m =? 0
      else Z.abs m * 2 ^ 1075 <=? 10 ^ (- e)
  end.

Definition str_truthy (s : string) : bool :=
  match s with
  | EmptyString => false
  | String _ _ => true
  end.

(** Python's truth value, as tested by [if x:] and [x and y]. *)
Definition truthy (v : PyValue) : bool :=
  match v with
  | PyNone => false
  | PyBool b => b
  | PyInt z => negb (z =? 0)
  | PyFloat f => negb (float_is_zero f)
  | PyStr s => str_truthy s
  | PyList items => match items with [] => false | _ :: _ => true end
  | PyDict entries => match entries with [] => false | _ :: _ => true end
  end.

(** The truth value of an optional string ([None] is false). *)
Definition opt_truthy (o : option string) : bool :=
  match o with
  | None => false
  | Some s => str_truthy s
  end.

(** ** Dictionaries: association lists with unique keys in insertion order *)

Fixpoint dict_lookup (d : list (string * PyValue)) (k : string) : option PyValue :=
  match d with
  | [] => None
  | (k', v) :: rest => if String.eqb k k' then Some v else dict_lookup rest k
  end.

(** [d.get(k, default)] *)
Definition dict_get (d : list (string * PyValue)) (k : string) (default : PyValue)
  : PyValue :=
  match dict_lookup d k with
  | Some v => v
  | None => default
  end.

(** [d[k] = v]: an existing key keeps its position. *)
Fixpoint dict_set (d : list (string * PyValue)) (k : string) (v : PyValue)
  : list (string * PyValue) :=
  match d with
  | [] => [(k, v)]
  | (k', v') :: rest =>
      if String.eqb k k' then (k', v) :: rest else (k', v') :: dict_set rest k v
  end.

(** [str(z)] for an integer. *)
Definition str_of_int (z : Z) : string := NilZero.string_of_int (Z.to_int z).

(** ** [json.loads]

    A decoder for the grammar of Python's [json] module in its default
    configuration (strict strings, [NaN] and the infinities accepted).  A
    Python [str] is represented by its UTF-8 bytes.  [None] stands for
    [json.JSONDecodeError]. *)
Module Json.

Definition backslash : ascii := ascii_of_nat 92.

Definition is_ws (c : ascii) : bool :=
  let n := N_of_ascii c in
  (N.eqb n 32 || N.eqb n 9 || N.eqb n 10 || N.eqb n 13)%bool.

Fixpoint skip_ws (s : string) : string :=
  match s with
  | String c r => if is_ws c then skip_ws r else s
  | EmptyString => s
  end.

Fixpoint strip_prefix (p s : string) : option string :=
  match p with
  | EmptyString => Some s
  | String a p' =>
      match s with
      | String b s' => if Ascii.eqb a b then strip_prefix p' s' else None
      | EmptyString => None
      end
  end.

Definition digit_val (c : ascii) : option Z :=
  let n := N_of_ascii c in
  if (N.leb 48 n && N.leb n 57)%bool then Some (Z.of_N n - 48) else None.

Definition hex_val (c : ascii) : option N :=
  let n := N_of_ascii c in
  if (N.leb 48 n && N.leb n 57)%bool then Some (n - 48)%N
  else if (N.leb 65 n && N.leb n 70)%bool then Some (n - 55)%N
  else if (N.leb 97 n && N.leb n 102)%bool then Some (n - 87)%N
  else None.

Definition hex4 (a b c d : ascii) : option N :=
  match hex_val a, hex_val b, hex_val c, hex_val d with
  | Some x, Some y, Some z, Some w => Some (((x * 16 + y) * 16 + z) * 16 + w)%N
  | _, _, _, _ => None
  end.

Definition byte (n : N) : ascii := ascii_of_N (n mod 256).

(** The UTF-8 bytes of a code point (a lone surrogate is encoded like any
    other three-byte code point). *)
Definition utf8 (cp : N) : string :=
  if (cp <? 128)%N then String (byte cp) EmptyString
  else if (cp <? 2048)%N then
    String (byte (192 + cp / 64)) (String (byte (128 + cp mod 64)) EmptyString)
  else if (cp <? 65536)%N then
    String (byte (224 + cp / 4096))
      (String (byte (128 + (cp / 64) mod 64))
         (String (byte (128 + cp mod 64)) EmptyString))
  else
    String (byte (240 + cp / 262144))
      (String (byte (128 + (cp / 4096) mod 64))
         (String (byte (128 + (cp / 64) mod 64))
            (String (byte (128 + cp mod 64)) EmptyString))).

Definition is_high_surrogate (cp : N) : bool := (N.leb 55296 cp && N.leb cp 56319)%bool.
Definition is_low_surrogate (cp : N) : bool := (N.leb 56320 cp && N.leb cp 57343)%bool.
Definition join_surrogates (hi lo : N) : N :=
  (65536 + ((hi - 55296) * 1024 + (lo - 56320)))%N.

(** The one-character escapes of a JSON string. *)
Definition simple_escape (c : ascii) : option ascii :=
  let n := N_of_ascii c in
  if N.eqb n 34 then Some dquote
  else if N.eqb n 92 then Some backslash
  else if N.eqb n 47 then Some "/"%char
  else if N.eqb n 98 then Some (ascii_of_nat 8)
  else if N.eqb n 102 then Some (ascii_of_nat 12)
  else if N.eqb n 110 then Some (ascii_of_nat 10)
  else if N.eqb n 114 then Some (ascii_of_nat 13)
  else if N.eqb n 116 then Some (ascii_of_nat 9)
  else None.

Definition prepend (p : string) (r : option (string * string))
  : option (string * string) :=
  match r with
  | Some (body, rest) => Some ((p ++ body)%string, rest)
  | None => None
  end.

(** The body of a string, read from just after its opening quote; returns the
    decoded text and what follows the closing quote. *)
Fixpoint scanstring (s : string) : option (string * string) :=
  match s with
  | EmptyString => None
  | String c r =>
      if Ascii.eqb c dquote then Some (EmptyString, r)
      else if Ascii.eqb c backslash then
        match r with
        | EmptyString => None
        | String e r1 =>
            if Ascii.eqb e "u"%char then
              match r1 with
              | String h1 (String h2 (String h3 (String h4 r2))) =>
                  match hex4 h1 h2 h3 h4 with
                  | None => None
                  | Some uni =>
                      match r2 with
                      | String b (String u (String g1 (String g2 (String g3 (String g4 r3))))) =>
                          if (is_high_surrogate uni && Ascii.eqb b backslash
                              && Ascii.eqb u "u"%char)%bool
                          then
                            match hex4 g1 g2 g3 g4 with
                            | None => None
                            | Some uni2 =>
                                if is_low_surrogate uni2
                                then prepend (utf8 (join_surrogates uni uni2)) (scanstring r3)
                                else prepend (utf8 uni) (scanstring r2)
                            end
                          else prepend (utf8 uni) (scanstring r2)
                      | _ => prepend (utf8 uni) (scanstring r2)
                      end
                  end
              | _ => None
              end
            else
              match simple_escape e with
              | Some ch => prepend (String ch EmptyString) (scanstring r1)
              | None => None
              end
        end
      else if (N_of_ascii c <? 32)%N then None
      else prepend (String c EmptyString) (scanstring r)
  end.

(** A maximal run of decimal digits: its value, its length, the rest. *)
Fixpoint scan_digits (s : string) (acc : Z) (n : nat) : Z * nat * string :=
  match s with
  | EmptyString => (acc, n, s)
  | String c r =>
      match digit_val c with
      | Some d => scan_digits r (acc * 10 + d) (S n)
      | None => (acc, n, s)
      end
  end.

(** The integer part: a single [0], or a run of digits not starting with [0]. *)
Definition scan_int_part (s : string) : option (Z * string) :=
  match s with
  | EmptyString => None
  | String c r =>
      match digit_val c with
      | None => None
      | Some d =>
          if d =? 0 then Some (0, r)
          else let '(v, _, rest) := scan_digits s 0 0 in Some (v, rest)
      end
  end.

(** An optional fraction [.digits]: its digits as an integer and their number. *)
Definition scan_frac (s : string) : option (Z * nat) * string :=
  match s with
  | String c r =>
      if Ascii.eqb c "."%char then
        let '(v, n, rest) := scan_digits r 0 0 in
        match n with
        | O => (None, s)
        | S _ => (Some (v, n), rest)
        end
      else (None, s)
  | EmptyString => (None, s)
  end.

(** An optional exponent [e], [e+] or [e-] followed by digits. *)
Definition scan_exp (s : string) : option Z * string :=
  match s with
  | String c r =>
      if (Ascii.eqb c "e"%char || Ascii.eqb c "E"%char)%bool then
        let '(negative, r1) :=
          match r with
          | String sg r' =>
              if Ascii.eqb sg "-"%char then (true, r')
              else if Ascii.eqb sg "+"%char then (false, r')
              else (false, r)
          | EmptyString => (false, r)
          end in
        let '(v, n, rest) := scan_digits r1 0 0 in
        match n with
        | O => (None, s)
        | S _ => (Some (if negative then - v else v), rest)
        end
      else (None, s)
  | EmptyString => (None, s)
  end.

Definition match_number (s : string) : option (PyValue * string) :=
  let '(negative, s1) :=
    match s with
    | String c r => if Ascii.eqb c "-"%char then (true, r) else (false, s)
    | EmptyString => (false, s)
    end in
  match scan_int_part s1 with
  | None => None
  | Some (ip, s2) =>
      let '(frac, s3) := scan_frac s2 in
      let '(ex, s4) := scan_exp s3 in
      let sign := fun z : Z => if negative then - z else z in
      match frac, ex with
      | None, None => Some (PyInt (sign ip), s4)
      | _, _ =>
          let '(fv, fn) := match frac with Some p => p | None => (0, O) end in
          let e := match ex with Some e => e | None => 0 end in
          Some (PyFloat (FloatDec (sign (ip * 10 ^ Z.of_nat fn + fv)) (e - Z.of_nat fn)),
                s4)
      end
  end.

(** The constants, tried before a number as the scanner does. *)
Definition scan_constant (s : string) : option (PyValue * string) :=
  match strip_prefix "null" s with
  | Some r => Some (PyNone, r)
  | None =>
  match strip_prefix "true" s with
  | Some r => Some (PyBool true, r)
  | None =>
  match strip_prefix "false" s with
  | Some r => Some (PyBool false, r)
  | None =>
  match strip_prefix "NaN" s with
  | Some r => Some (PyFloat FloatNaN, r)
  | None =>
  match strip_prefix "Infinity" s with
  | Some r => Some (PyFloat (FloatInf false), r)
  | None =>
  match strip_prefix "-Infinity" s with
  | Some r => Some (PyFloat (FloatInf true), r)
  | None => match_number s
  end end end end end end.

(** One value at the head of [s]; arrays and objects are read by the two
    loops.  The fuel bounds the depth of the calls; [loads] gives two units
    for each character, which is always enough
    ([JsonFacts.loads_has_enough_fuel]). *)
Fixpoint scan_once (fuel : nat) (s : string) : option (PyValue * string) :=
  match fuel with
  | O => None
  | S fuel' =>
      match s with
      | EmptyString => None
      | String c r =>
          if Ascii.eqb c dquote then
            match scanstring r with
            | Some (text, rest) => Some (PyStr text, rest)
            | None => None
            end
          else if Ascii.eqb c "{"%char then
            match skip_ws r with
            | EmptyString => None
            | String c1 r1 =>
                if Ascii.eqb c1 "}"%char then Some (PyDict [], r1)
                else if Ascii.eqb c1 dquote then object_loop fuel' [] r1
                else None
            end
          else if Ascii.eqb c "["%char then
            match skip_ws r with
            | EmptyString => None
            | String c1 r1 =>
                if Ascii.eqb c1 "]"%char then Some (PyList [], r1)
                else array_loop fuel' [] (String c1 r1)
            end
          else scan_constant s
      end
  end

with array_loop (fuel : nat) (acc : list PyValue) (s : string)
  : option (PyValue * string) :=
  match fuel with
  | O => None
  | S fuel' =>
      match scan_once fuel' s with
      | None => None
      | Some (v, s1) =>
          match skip_ws s1 with
          | EmptyString => None
          | String c r =>
              if Ascii.eqb c "]"%char then Some (PyList (rev (v :: acc)), r)
              else if Ascii.eqb c ","%char then array_loop fuel' (v :: acc) (skip_ws r)
              else None
          end
      end
  end

with object_loop (fuel : nat) (d : list (string * PyValue)) (s : string)
  : option (PyValue * string) :=
  match fuel with
  | O => None
  | S fuel' =>
      match scanstring s with
      | None => None
      | Some (key, s1) =>
          match skip_ws s1 with
          | EmptyString => None
          | String c r =>
              if Ascii.eqb c ":"%char then
                match scan_once fuel' (skip_ws r) with
                | None => None
                | Some (v, s2) =>
                    let d' := dict_set d key v in
                    match skip_ws s2 with
                    | EmptyString => None
                    | String c2 r2 =>
                        if Ascii.eqb c2 "}"%char then Some (PyDict d', r2)
                        else if Ascii.eqb c2 ","%char then
                          match skip_ws r2 with
                          | EmptyString => None
                          | String c3 r3 =>
                              if Ascii.eqb c3 dquote then object_loop fuel' d' r3
                              else None
                          end
                        else None
                    end
                end
              else None
          end
      end
  end.

(** [json.loads(s)] for a [str]: one value, surrounded by white space only. *)
Definition loads (s : string) : option PyValue :=
  match scan_once (2 * String.length s + 2) (skip_ws s) with
  | Some (v, rest) =>
      match skip_ws rest with
      | EmptyString => Some v
      | String _ _ => None
      end
  | None => None
  end.

End Json.

(** ** Exceptions *)

Inductive Exception : Type :=
| ProcessError (message : string)
| CLIConnectionError (message : string)
| CLINotFoundError (message : string)
| CLIJSONDecodeError (message : string)
| MessageParseError (message : string)
| JSONDecodeError (message : string)
| TypeError (message : string)
| KeyError (key : string)
| OtherException (class_name message : string).

(** [except ProcessError]: no other class of the SDK derives from it. *)
Definition is_ProcessError (e : Exception) : bool :=
  match e with
  | ProcessError _ => true
  | _ => false
  end.

(** [except json.JSONDecodeError] *)
Definition is_JSONDecodeError (e : Exception) : bool :=
  match e with
  | JSONDecodeError _ => true
  | _ => false
  end.

Inductive Result (A : Type) : Type :=
| Returns (a : A)
| Raises (e : Exception).
Arguments Returns {A} a.
Arguments Raises {A} e.

(** [json.loads] as decoded by [Json.loads]. *)
Definition json_decoder (s : string) : Result PyValue :=
  match Json.loads s with
  | Some v => Returns v
  | None => Raises (JSONDecodeError "Expecting value")
  end.

(** ** Messages of the SDK (the fields the program reads) *)

(** [ToolResultBlock.content : str | list[dict[str, Any]] | None] *)
Inductive ToolResultContent : Type :=
| ContentNone
| ContentStr (s : string)
| ContentList (items : list PyValue).

(** [id] is [None] when the block has no attribute of that name. *)
Inductive ContentBlock : Type :=
| TextBlock (text : string)
| ThinkingBlock (thinking signature : string)
| ToolUseBlock (id : option string) (name : string) (input : PyValue)
| ToolResultBlock (tool_use_id : string) (content : ToolResultContent)
    (is_error : option bool).

(** [UserMessage.content : str | list[ContentBlock]] *)
Inductive UserContent : Type :=
| UserText (s : string)
| UserBlocks (blocks : list ContentBlock).

Inductive Message : Type :=
| UserMessage (content : UserContent)
| AssistantMessage (content : list ContentBlock)
| SystemMessage (subtype : string) (data : list (string * PyValue))
| ResultMessage (session_id : string)
| StreamEvent (event : PyValue).

(** ** Events yielded by the entrypoint

    - [CurrentToolUse n i t] is the dict with the one key [current_tool_use],
      bound to the dict of [name], [input] and [toolUseId];
    - [Data t] is the dict with the one key [data];
    - [ClaudeSessionId s] is the dict with the one key [claude_session_id]. *)
Inductive Event : Type :=
| CurrentToolUse (name : string) (input : PyValue) (toolUseId : string)
| Data (text : string)
| ClaudeSessionId (session_id : string).

(** ** Run configuration *)

Inductive McpServer : Type :=
| code_int_mcp_server
| HttpServer (url : string) (headers : list (string * string)).

Record AgentDefinition : Type := {
  description : string;
  prompt : string;
  tools : list string;
  agent_model : string
}.

Record ClaudeAgentOptions : Type := {
  mcp_servers : list (string * McpServer);
  model : string;
  allowed_tools : list string;
  agents : list (string * AgentDefinition);
  resume : PyValue;
  thinking : list (string * string);
  cli_path : string;
  system_prompt : string
}.

(** What the process environment and the helpers of [utils.auth] and
    [utils.ssm] answer. *)
Record Env : Type := {
  STACK_NAME : option string;
  get_ssm_parameter : string -> string;
  get_gateway_access_token : string;
  extract_user_id_from_context : string
}.

(** What a client gives back over one attempt: the messages it delivered, in
    arrival order, and the exception that ended the attempt, if one did. *)
Record Response : Type := {
  messages : list Message;
  failure : option Exception
}.

(** ** agents/subagents.py *)

Definition code_analyst_description : string :=
  "Analyzes code output, debugs errors, and explains results. Can execute code via Code Interpreter. Use when you have code execution output or errors that need detailed analysis. Pass the output/error text directly in the task prompt.".

Definition code_analyst_prompt : string :=
  ("You are a code analysis specialist. You receive code, execution output, and error messages for analysis.

When analyzing:
- Identify root causes of errors
- Provide clear, actionable explanations
- Suggest fixes with code examples
- Use mcp__codeint__execute_code to test fixes if needed
- Summarize findings concisely

CRITICAL SESSION MANAGEMENT:
1. For the FIRST Code Interpreter call, pass an empty string " ++ dq ++ dq ++
   " for code_int_session_id
2. The tool will return a session ID in its response
3. Use that EXACT returned session ID for ALL subsequent Code Interpreter calls
4. NEVER make up or generate your own session IDs
5. Only use " ++ dq ++ dq ++
   " (first call) or the exact session ID returned by Code Interpreter")%string.

Definition get_subagent_definitions (mcp_servers : list (string * McpServer))
  : list (string * AgentDefinition) :=
  [("code-analyst",
    {| description := code_analyst_description;
       prompt := code_analyst_prompt;
       tools := ["mcp__codeint__execute_code";
                 "mcp__codeint__execute_command";
                 "mcp__gateway__*";
                 "Read";
                 "Grep";
                 "Glob"];
       agent_model := "sonnet" |})].

(** ** agent.py: what [main] sets up before the first attempt *)

(** [get_ssm_parameter(f"/{stack_name}/gateway_url") if stack_name else None] *)
Definition gateway_url (env : Env) : option string :=
  match STACK_NAME env with
  | Some stack_name =>
      if str_truthy stack_name
      then Some (get_ssm_parameter env ("/" ++ stack_name ++ "/gateway_url")%string)
      else None
  | None => None
  end.

(** [get_gateway_access_token() if gateway_url else None] *)
Definition access_token (env : Env) : option string :=
  if opt_truthy (gateway_url env) then Some (get_gateway_access_token env) else None.

(** [gateway_url and access_token] *)
Definition gateway_available (env : Env) : bool :=
  (opt_truthy (gateway_url env) && opt_truthy (access_token env))%bool.

Definition unwrap (o : option string) : string :=
  match o with
  | Some s => s
  | None => EmptyString
  end.

Definition build_mcp_servers (env : Env) : list (string * McpServer) :=
  [("codeint", code_int_mcp_server)]
  ++ (if gateway_available env
      then [("gateway",
             HttpServer (unwrap (gateway_url env))
               [("Authorization", ("Bearer " ++ unwrap (access_token env))%string)])]
      else []).

Definition build_allowed_tools (env : Env) : list string :=
  ["mcp__codeint__execute_code";
   "mcp__codeint__execute_command";
   "mcp__codeint__write_files";
   "mcp__codeint__read_files"]
  ++ (if gateway_available env then ["mcp__gateway__*"] else [])
  ++ ["Task"].

Definition main_system_prompt : string :=
  ("You are an AI assistant that helps users with code execution and analysis tasks.

CRITICAL RULES:
1. You MUST use mcp__codeint__execute_code for ALL Python code execution tasks.
2. You can use mcp__codeint__execute_command to execute bash commands.
3. Use gateway tools (mcp__gateway__*) for accessing tools provided via the Gateway.
4. Use the tools without asking for permission.
5. CODE INTERPRETER SESSION: For the first Code Interpreter call, pass an empty string "
   ++ dq ++ dq ++
   " for code_int_session_id. The tool will return a valid session ID in its response. Use that EXACT returned session ID for all subsequent Code Interpreter calls in this conversation. NEVER make up or generate your own session IDs.

SUBAGENT DELEGATION:
You have specialized subagents available via the Task tool:
- code-analyst: For analyzing code output, debugging errors, explaining results. Has Code Interpreter and Gateway tools.
When delegating, include all relevant context in the Task prompt.

Available tool categories:
- Code Interpreter: execute_code, execute_command, write_files, read_files
- Gateway: Tools provided via the AgentCore Gateway (mcp__gateway__*)

Your response should:
1. Show the results
2. Provide a brief explanation
")%string.

(** [_build_options(resume_id)]; the [stderr] callback only logs. *)
Definition _build_options (env : Env) (resume_id : PyValue) : ClaudeAgentOptions :=
  {| mcp_servers := build_mcp_servers env;
     model := "us.anthropic.claude-opus-4-6-v1";
     allowed_tools := build_allowed_tools env;
     agents := get_subagent_definitions (build_mcp_servers env);
     resume := resume_id;
     thinking := [("type", "adaptive")];
     cli_path := "/usr/bin/claude";
     system_prompt := main_system_prompt |}.

(** ** Clients, hashes and payloads to run the program on *)

(** A hash to run the program with: the length of the string. *)
Definition length_hash (s : string) : Z := Z.of_nat (String.length s).

Definition no_response : Response := {| messages := []; failure := None |}.

(** A client that plays a script: the world counts the clients opened so far,
    and the [n]-th client answers with the [n]-th response of the script. *)
Definition scripted_client (script : list Response)
  : ClaudeAgentOptions -> PyValue -> nat -> Response * nat :=
  fun _ _ n => (nth n script no_response, S n).

(** No [STACK_NAME]: the gateway is not set up. *)
Definition env_without_gateway : Env :=
  {| STACK_NAME := None;
     get_ssm_parameter := fun _ => EmptyString;
     get_gateway_access_token := EmptyString;
     extract_user_id_from_context := "user-1" |}.

Definition env_with_gateway : Env :=
  {| STACK_NAME := Some "stack";
     get_ssm_parameter := fun _ => "https://gateway.example/mcp";
     get_gateway_access_token := "token";
     extract_user_id_from_context := "user-1" |}.

(** The text [{"code_int_session_id": "sess-42"}]. *)
Definition session_payload : string :=
  ("{" ++ dq ++ "code_int_session_id" ++ dq ++ ": " ++ dq ++ "sess-42" ++ dq ++ "}")%string.

(** A tool result whose first content item is the text [text]. *)
Definition text_result (text : string) : ContentBlock :=
  ToolResultBlock "toolu_1"
    (ContentList [PyDict [("type", PyStr "text"); ("text", PyStr text)]]) None.

Definition tool_result_message (text : string) : Message :=
  UserMessage (UserBlocks [text_result text]).

(** The block of scenario B. *)
Definition execute_code_block : ContentBlock :=
  ToolUseBlock (Some "abc") "execute_code" (PyDict [("code", PyStr "print(1)")]).

(** The messages of scenario A with their completion marker. *)
Definition scenario_A : list Message :=
  [SystemMessage "init" [("session_id", PyStr "r1")];
   AssistantMessage [TextBlock "hi"];
   ResultMessage "r1"].

Definition payload_with (token session : PyValue) : list (string * PyValue) :=
  [("prompt", PyStr "run it");
   ("claude_session_id", token);
   ("code_int_session_id", session)].

Definition process_failure : Response :=
  {| messages := []; failure := Some (ProcessError "exit code 1") |}.


(** ** What the properties speak of *)

(** The texts of the [data] events among [events], in order. *)
Fixpoint data_texts (events : list Event) : list string :=
  match events with
  | [] => []
  | Data text :: rest => text :: data_texts rest
  | _ :: rest => data_texts rest
  end.


(** The messages no branch of the loop does anything for: system messages,
    stream events, and user messages whose content is a plain string. *)
Definition silent (m : Message) : bool :=
  match m with
  | SystemMessage _ _ => true
  | StreamEvent _ => true
  | UserMessage (UserText _) => true
  | _ => false
  end.

(** A response that delivers [ms], then the completion marker of the run
    [session_id], and ends without exception. *)
Definition completed (ms : list Message) (session_id : string) : Response :=
  {| messages := ms ++ [ResultMessage session_id]; failure := None |}.

(** A tool result whose first content item is the dict [d]. *)
Definition dict_result (d : list (string * PyValue)) : ContentBlock :=
  ToolResultBlock "toolu_2" (ContentList [PyDict d]) None.

(** ** agent.py: the generator *)

Section Driver.

(** The state of the outside world and the SDK client: opening a client with
    some options, sending it the prompt and draining its responses. *)
Variable World : Type.
Variable client : ClaudeAgentOptions -> PyValue -> World -> Response * World.

(** Python's [hash] on strings (seeded per process) and [json.loads]. *)
Variable hash : string -> Z.
Variable json_loads : string -> Result PyValue.

(** The variables of [main] that the generator works on, and the one local of
    [_process_messages].

    [_process_messages] assigns to [code_int_session_id] and declares it
    neither [nonlocal] nor [global]: the name is a local of that function,
    unbound when a call starts, and the assignment never reaches the variable
    of the same name in [main].  [agent_responses] is only mutated in place,
    so it is the list of [main].  [opened] records, for the proofs, the
    options of every client opened so far. *)
Record State : Type := {
  agent_responses : list string;
  code_int_session_id : PyValue;
  local_code_int_session_id : option PyValue;
  world : World;
  opened : list ClaudeAgentOptions
}.

Definition set_agent_responses (l : list string) (st : State) : State :=
  {| agent_responses := l;
     code_int_session_id := code_int_session_id st;
     local_code_int_session_id := local_code_int_session_id st;
     world := world st;
     opened := opened st |}.

Definition set_local (v : option PyValue) (st : State) : State :=
  {| agent_responses := agent_responses st;
     code_int_session_id := code_int_session_id st;
     local_code_int_session_id := v;
     world := world st;
     opened := opened st |}.

(** A new call of [_process_messages] on [options]: a fresh frame and one more
    client. *)
Definition enter (options : ClaudeAgentOptions) (w : World) (st : State) : State :=
  {| agent_responses := agent_responses st;
     code_int_session_id := code_int_session_id st;
     local_code_int_session_id := None;
     world := w;
     opened := opened st ++ [options] |}.

(** What a piece of generator code has done when control leaves it: the events
    it yielded, the state it left, and the exception it raised, if any. *)
Record Run : Type := {
  yielded : list Event;
  final : State;
  raised : option Exception
}.

Definition Gen : Type := State -> Run.

Definition pass : Gen :=
  fun st => {| yielded := []; final := st; raised := None |}.

Definition yield (e : Event) : Gen :=
  fun st => {| yielded := [e]; final := st; raised := None |}.

Definition raise (e : Exception) : Gen :=
  fun st => {| yielded := []; final := st; raised := Some e |}.

Definition assign (f : State -> State) : Gen :=
  fun st => {| yielded := []; final := f st; raised := None |}.

(** [g1] then [g2]; an exception of [g1] skips [g2]. *)
Definition seq (g1 g2 : Gen) : Gen :=
  fun st =>
    let r1 := g1 st in
    match raised r1 with
    | Some _ => r1
    | None =>
        let r2 := g2 (final r1) in
        {| yielded := yielded r1 ++ yielded r2;
           final := final r2;
           raised := raised r2 |}
    end.

Fixpoint for_each {A : Type} (body : A -> Gen) (l : list A) : Gen :=
  match l with
  | [] => pass
  | x :: rest => seq (body x) (for_each body rest)
  end.

(** [try: body except C: handler], where [catches] tells the exceptions of
    class [C]; what the body yielded before it raised stays yielded. *)
Definition try_except (body : Gen) (catches : Exception -> bool)
  (handler : Exception -> Gen) : Gen :=
  fun st =>
    let r1 := body st in
    match raised r1 with
    | Some e =>
        if catches e then
          let r2 := handler e (final r1) in
          {| yielded := yielded r1 ++ yielded r2;
             final := final r2;
             raised := raised r2 |}
        else r1
    | None => r1
    end.

(** [f"tool-{block.id}" if hasattr(block, "id") else f"tool-{hash(block.name)}"] *)
Definition toolUseId (id : option string) (name : string) : string :=
  match id with
  | Some i => ("tool-" ++ i)%string
  | None => ("tool-" ++ str_of_int (hash name))%string
  end.

(** One block of an [AssistantMessage] (lines 126 to 138). *)
Definition assistant_block (block : ContentBlock) : Gen :=
  match block with
  | ToolUseBlock id name input =>
      yield (CurrentToolUse name input (toolUseId id name))
  | TextBlock text =>
      seq (assign (fun st => set_agent_responses (agent_responses st ++ [text]) st))
          (yield (Data text))
  | _ => pass
  end.

(** [block.content and len(block.content) > 0] *)
Definition content_present (c : ToolResultContent) : bool :=
  match c with
  | ContentNone => false
  | ContentStr s => (str_truthy s && (0 <? Z.of_nat (String.length s)))%bool
  | ContentList items =>
      (match items with [] => false | _ :: _ => true end
       && (0 <? Z.of_nat (List.length items)))%bool
  end.

(** [block.content[0]], where [content_present] holds. *)
Definition content_first (c : ToolResultContent) : option PyValue :=
  match c with
  | ContentNone => None
  | ContentStr s =>
      match s with
      | String ch _ => Some (PyStr (String ch EmptyString))
      | EmptyString => None
      end
  | ContentList items => hd_error items
  end.

(** [json.loads(text_content)]: anything but a [str] is a [TypeError]. *)
Definition json_loads_value (v : PyValue) : Result PyValue :=
  match v with
  | PyStr s => json_loads s
  | _ => Raises (TypeError "the JSON object must be str, bytes or bytearray")
  end.

(** The [try] statement of lines 145 to 152. *)
Definition extract_session (text_content : PyValue) : Gen :=
  match json_loads_value text_content with
  | Returns result_data =>
      match result_data with
      | PyDict d =>
          let extracted := dict_get d "code_int_session_id" (PyStr EmptyString) in
          if truthy extracted
          then assign (set_local (Some extracted))
          else pass
      | _ => pass
      end
  | Raises e => if is_JSONDecodeError e then pass else raise e
  end.

(** One block of a [UserMessage] (lines 141 to 152). *)
Definition user_block (block : ContentBlock) : Gen :=
  match block with
  | ToolResultBlock _ content _ =>
      if content_present content then
        match content_first content with
        | Some (PyDict d) => extract_session (dict_get d "text" (PyStr EmptyString))
        | _ => pass
        end
      else pass
  | _ => pass
  end.

(** Iterating over a [str] gives its characters, none of them a block. *)
Definition user_content (c : UserContent) : Gen :=
  match c with
  | UserText _ => pass
  | UserBlocks blocks => for_each user_block blocks
  end.

(** The body of the [async for] loop (lines 121 to 155). *)
Definition process_message (msg : Message) : Gen :=
  match msg with
  | SystemMessage _ _ => pass
  | AssistantMessage content => for_each assistant_block content
  | UserMessage content => user_content content
  | ResultMessage session_id => yield (ClaudeSessionId session_id)
  | StreamEvent _ => pass
  end.

(** The loop over the messages a client delivered, then the exception the
    client ended with. *)
Definition receive (r : Response) : Gen :=
  seq (for_each process_message (messages r))
      (match failure r with
       | Some e => raise e
       | None => pass
       end).

(** [_process_messages(options)] for the prompt [prompt]. *)
Definition _process_messages (prompt : PyValue) (options : ClaudeAgentOptions) : Gen :=
  fun st =>
    let '(r, w) := client options prompt (world st) in
    receive r (enter options w st).

(** The [except ProcessError] clause (lines 161 to 166). *)
Definition on_process_error (env : Env) (prompt claude_session_id : PyValue)
  (e : Exception) : Gen :=
  if truthy claude_session_id
  then _process_messages prompt (_build_options env PyNone)
  else raise e.

(** The [try] statement of [main] (lines 157 to 166). *)
Definition attempts (env : Env) (prompt claude_session_id : PyValue) : Gen :=
  try_except (_process_messages prompt (_build_options env claude_session_id))
    is_ProcessError
    (on_process_error env prompt claude_session_id).

Definition initial_state (payload : list (string * PyValue)) (w : World) : State :=
  {| agent_responses := [];
     code_int_session_id := dict_get payload "code_int_session_id" (PyStr EmptyString);
     local_code_int_session_id := None;
     world := w;
     opened := [] |}.

(** [main(payload, context)], started in the world [w].  The user id and the
    runtime session id are only logged; a payload without a prompt is a
    [KeyError] before anything else happens. *)
Definition main (payload : list (string * PyValue)) (env : Env) (w : World) : Run :=
  match dict_lookup payload "prompt" with
  | None => raise (KeyError "prompt") (initial_state payload w)
  | Some prompt =>
      attempts env prompt (dict_get payload "claude_session_id" PyNone)
        (initial_state payload w)
  end.

(** [b] is a tool result whose payload parses as an object whose
    [code_int_session_id] field is the non-empty value [v]. *)
Inductive carries_session : ContentBlock -> PyValue -> Prop :=
| carries_session_intro :
    forall tool_use_id d rest is_error s o v,
      dict_get d "text" (PyStr EmptyString) = PyStr s ->
      json_loads s = Returns (PyDict o) ->
      dict_get o "code_int_session_id" (PyStr EmptyString) = v ->
      truthy v = true ->
      carries_session
        (ToolResultBlock tool_use_id (ContentList (PyDict d :: rest)) is_error) v.


(** [m] is a user message with a tool result that carries the session [v]. *)
Definition message_carries_session (m : Message) (v : PyValue) : Prop :=
  exists blocks b,
    m = UserMessage (UserBlocks blocks) /\ In b blocks /\ carries_session b v.


(** Two states that differ at most in the [code_int_session_id] of [main]. *)
Definition agree (s1 s2 : State) : Prop :=
  agent_responses s1 = agent_responses s2
  /\ local_code_int_session_id s1 = local_code_int_session_id s2
  /\ world s1 = world s2
  /\ opened s1 = opened s2.

(** A generator that neither reads nor writes the [code_int_session_id] of
    [main]. *)
Definition blind (g : Gen) : Prop :=
  forall s1 s2, agree s1 s2 ->
    yielded (g s1) = yielded (g s2)
    /\ raised (g s1) = raised (g s2)
    /\ agree (final (g s1)) (final (g s2)).

(** A generator that leaves the world, the clients opened and the variable of
    [main] as they are. *)
Definition local_only (g : Gen) : Prop :=
  forall st,
    world (final (g st)) = world st
    /\ opened (final (g st)) = opened st
    /\ code_int_session_id (final (g st)) = code_int_session_id st.

(** A generator that appends to [agent_responses] exactly the texts of the
    [data] events it yields. *)
Definition transcribes (g : Gen) : Prop :=
  forall st,
    agent_responses (final (g st))
    = agent_responses st ++ data_texts (yielded (g st)).

(** ** The combinators *)

Lemma seq_no_raise (g1 g2 : Gen) (st : State) :
  raised (g1 st) = None ->
  seq g1 g2 st =
  {| yielded := yielded (g1 st) ++ yielded (g2 (final (g1 st)));
     final := final (g2 (final (g1 st)));
     raised := raised (g2 (final (g1 st))) |}.
Proof.
  intros H. unfold seq. rewrite H. reflexivity.
Qed.

Lemma seq_raise (g1 g2 : Gen) (st : State) (e : Exception) :
  raised (g1 st) = Some e -> seq g1 g2 st = g1 st.
Proof.
  intros H. unfold seq. rewrite H. reflexivity.
Qed.

Lemma local_only_seq (g1 g2 : Gen) :
  local_only g1 -> local_only g2 -> local_only (seq g1 g2).
Proof.
  intros H1 H2 st. unfold seq.
  destruct (raised (g1 st)); [apply H1|]. cbn.
  destruct (H1 st) as (Hw & Ho & Hc).
  destruct (H2 (final (g1 st))) as (Hw' & Ho' & Hc').
  repeat split; congruence.
Qed.

Lemma local_only_for_each {A : Type} (body : A -> Gen) (l : list A) :
  (forall x, local_only (body x)) -> local_only (for_each body l).
Proof.
  intros H. induction l as [|x rest IH]; cbn.
  - intros st. cbn. auto.
  - apply local_only_seq; auto.
Qed.

Lemma blind_seq (g1 g2 : Gen) : blind g1 -> blind g2 -> blind (seq g1 g2).
Proof.
  intros H1 H2 s1 s2 Hs. unfold seq.
  destruct (H1 s1 s2 Hs) as (Hy & Hr & Hf). rewrite Hr.
  destruct (raised (g1 s2)); [auto|]. cbn.
  destruct (H2 _ _ Hf) as (Hy' & Hr' & Hf').
  repeat split; try congruence; apply Hf'.
Qed.

Lemma blind_for_each {A : Type} (body : A -> Gen) (l : list A) :
  (forall x, blind (body x)) -> blind (for_each body l).
Proof.
  intros H. induction l as [|x rest IH]; cbn.
  - intros s1 s2 Hs. cbn. auto.
  - apply blind_seq; auto.
Qed.

Lemma local_only_pass : local_only pass.
Proof. intros st. cbn. auto. Qed.

Lemma local_only_yield (e : Event) : local_only (yield e).
Proof. intros st. cbn. auto. Qed.

Lemma local_only_raise (e : Exception) : local_only (raise e).
Proof. intros st. cbn. auto. Qed.

Lemma local_only_set_local (v : option PyValue) : local_only (assign (set_local v)).
Proof. intros st. cbn. auto. Qed.

Lemma blind_pass : blind pass.
Proof. intros s1 s2 Hs. cbn. auto. Qed.

Lemma blind_yield (e : Event) : blind (yield e).
Proof. intros s1 s2 Hs. cbn. auto. Qed.

Lemma blind_raise (e : Exception) : blind (raise e).
Proof. intros s1 s2 Hs. cbn. auto. Qed.

Lemma blind_set_local (v : option PyValue) : blind (assign (set_local v)).
Proof.
  intros s1 s2 (Ha & Hl & Hw & Ho). cbn. unfold agree. cbn.
  repeat split; auto.
Qed.

Create HintDb driver.

#[local] Hint Resolve local_only_pass local_only_yield local_only_raise
  local_only_set_local local_only_seq local_only_for_each
  blind_pass blind_yield blind_raise blind_set_local blind_seq blind_for_each
  : driver.

(** ** The translator, block by block *)

Lemma local_only_assistant_block (b : ContentBlock) : local_only (assistant_block b).
Proof.
  destruct b; cbn; auto with driver.
Qed.

Lemma blind_assistant_block (b : ContentBlock) : blind (assistant_block b).
Proof.
  destruct b; cbn; auto with driver.
  apply blind_seq; auto with driver.
  intros s1 s2 (Ha & Hl & Hw & Ho). cbn. unfold agree. cbn.
  rewrite Ha. repeat split; auto.
Qed.

Lemma local_only_extract_session (v : PyValue) : local_only (extract_session v).
Proof.
  unfold extract_session.
  destruct (json_loads_value v) as [[| | | | |items|d]|e]; auto with driver.
  - destruct (truthy _); auto with driver.
  - destruct (is_JSONDecodeError e); auto with driver.
Qed.

Lemma blind_extract_session (v : PyValue) : blind (extract_session v).
Proof.
  unfold extract_session.
  destruct (json_loads_value v) as [[| | | | |items|d]|e]; auto with driver.
  - destruct (truthy _); auto with driver.
  - destruct (is_JSONDecodeError e); auto with driver.
Qed.

Lemma local_only_user_block (b : ContentBlock) : local_only (user_block b).
Proof.
  destruct b as [| | |tid content err]; cbn; auto with driver.
  destruct (content_present content); auto with driver.
  destruct (content_first content) as [[| | | | |items|d]|]; auto with driver.
  apply local_only_extract_session.
Qed.

Lemma blind_user_block (b : ContentBlock) : blind (user_block b).
Proof.
  destruct b as [| | |tid content err]; cbn; auto with driver.
  destruct (content_present content); auto with driver.
  destruct (content_first content) as [[| | | | |items|d]|]; auto with driver.
  apply blind_extract_session.
Qed.

Lemma local_only_process_message (m : Message) : local_only (process_message m).
Proof.
  destruct m as [[text|blocks]|content| | |]; cbn; auto with driver.
  - apply local_only_for_each, local_only_user_block.
  - apply local_only_for_each, local_only_assistant_block.
Qed.

Lemma blind_process_message (m : Message) : blind (process_message m).
Proof.
  destruct m as [[text|blocks]|content| | |]; cbn; auto with driver.
  - apply blind_for_each, blind_user_block.
  - apply blind_for_each, blind_assistant_block.
Qed.

Lemma local_only_receive (r : Response) : local_only (receive r).
Proof.
  unfold receive. apply local_only_seq.
  - apply local_only_for_each, local_only_process_message.
  - destruct (failure r); auto with driver.
Qed.

Lemma blind_receive (r : Response) : blind (receive r).
Proof.
  unfold receive. apply blind_seq.
  - apply blind_for_each, blind_process_message.
  - destruct (failure r); auto with driver.
Qed.

(** An attempt opens exactly one client, with the options it was given. *)
Lemma _process_messages_opened (prompt : PyValue) (options : ClaudeAgentOptions)
  (st : State) :
  opened (final (_process_messages prompt options st)) = opened st ++ [options]
  /\ code_int_session_id (final (_process_messages prompt options st))
     = code_int_session_id st.
Proof.
  unfold _process_messages.
  destruct (client options prompt (world st)) as [r w].
  destruct (local_only_receive r (enter options w st)) as (_ & Ho & Hc).
  rewrite Ho, Hc. cbn. auto.
Qed.

Lemma blind__process_messages (prompt : PyValue) (options : ClaudeAgentOptions) :
  blind (_process_messages prompt options).
Proof.
  intros s1 s2 Hs. unfold _process_messages.
  destruct Hs as (Ha & Hl & Hw & Ho). rewrite Hw.
  destruct (client options prompt (world s2)) as [r w].
  apply blind_receive. unfold agree. cbn. rewrite Ha, Ho. auto.
Qed.

Lemma blind_attempts (env : Env) (prompt token : PyValue) :
  blind (attempts env prompt token).
Proof.
  intros s1 s2 Hs. unfold attempts, try_except. cbv zeta.
  destruct (blind__process_messages prompt (_build_options env token) s1 s2 Hs)
    as (Hy & Hr & Hf).
  rewrite Hr.
  destruct (raised (_process_messages prompt (_build_options env token) s2))
    as [e|] eqn:E; [|split; [|split]; auto; congruence].
  destruct (is_ProcessError e); [|split; [|split]; auto; congruence].
  unfold on_process_error.
  destruct (truthy token).
  - destruct (blind__process_messages prompt (_build_options env PyNone) _ _ Hf)
      as (Hy' & Hr' & Hf').
    cbn. rewrite Hy, Hy'. split; [|split]; auto.
  - cbn. rewrite Hy. split; [|split]; auto.
Qed.

(** ** Order of the events *)

(** A loop whose body never raises and yields the same events in every state
    runs to its end and yields the events of its items, item after item. *)
Lemma for_each_total {A : Type} (body : A -> Gen) (l : list A) (st : State) :
  (forall x s, raised (body x s) = None) ->
  (forall x s s', yielded (body x s) = yielded (body x s')) ->
  raised (for_each body l st) = None
  /\ yielded (for_each body l st) = flat_map (fun x => yielded (body x st)) l.
Proof.
  intros Hr Hy. revert st.
  induction l as [|x rest IH]; intros st; cbn; [auto|].
  rewrite seq_no_raise by apply Hr. cbn.
  destruct (IH (final (body x st))) as (IHr & IHy).
  split; [exact IHr|].
  rewrite IHy. f_equal.
  apply flat_map_ext. intros y. apply Hy.
Qed.

(** A loop whose body yields the same events in every state yields the events
    of the items it reached, item after item; it reached all of them unless
    it raised. *)
Lemma for_each_prefix {A : Type} (body : A -> Gen) (l : list A) (st : State) :
  (forall x s s', yielded (body x s) = yielded (body x s')) ->
  exists n : nat,
    (n <= List.length l)%nat
    /\ yielded (for_each body l st)
       = flat_map (fun x => yielded (body x st)) (firstn n l)
    /\ (n = List.length l \/ raised (for_each body l st) <> None).
Proof.
  intros Hy. revert st.
  induction l as [|x rest IH]; intros st; cbn.
  - exists 0%nat. cbn. auto.
  - destruct (raised (body x st)) as [e|] eqn:E.
    + exists 1%nat. rewrite (seq_raise _ _ _ e E). cbn.
      rewrite app_nil_r. repeat split; [lia|].
      right. rewrite E. discriminate.
    + rewrite seq_no_raise by exact E. cbn.
      destruct (IH (final (body x st))) as (n & Hn & Hyl & Hend).
      exists (S n). cbn. repeat split; [lia| |].
      * rewrite Hyl. f_equal. apply flat_map_ext. intros y. apply Hy.
      * destruct Hend as [->|Hend]; auto.
Qed.

Lemma assistant_block_never_raises (b : ContentBlock) (st : State) :
  raised (assistant_block b st) = None.
Proof. destruct b; reflexivity. Qed.

Lemma assistant_block_yield_fixed (b : ContentBlock) (s s' : State) :
  yielded (assistant_block b s) = yielded (assistant_block b s').
Proof. destruct b; reflexivity. Qed.

(** The events of an [AssistantMessage] are those of its blocks, in order. *)
Lemma assistant_message_events (content : list ContentBlock) (st : State) :
  raised (process_message (AssistantMessage content) st) = None
  /\ yielded (process_message (AssistantMessage content) st)
     = flat_map (fun b => yielded (assistant_block b st)) content.
Proof.
  cbn. apply for_each_total.
  - apply assistant_block_never_raises.
  - apply assistant_block_yield_fixed.
Qed.

Lemma extract_session_yields_nothing (v : PyValue) (st : State) :
  yielded (extract_session v st) = [].
Proof.
  unfold extract_session.
  destruct (json_loads_value v) as [[| | | | |items|d]|e]; try reflexivity.
  - destruct (truthy _); reflexivity.
  - destruct (is_JSONDecodeError e); reflexivity.
Qed.

Lemma user_block_yields_nothing (b : ContentBlock) (st : State) :
  yielded (user_block b st) = [].
Proof.
  destruct b as [| | |tid content err]; try reflexivity. cbn.
  destruct (content_present content); [|reflexivity].
  destruct (content_first content) as [[| | | | |items|d]|]; try reflexivity.
  apply extract_session_yields_nothing.
Qed.

Lemma for_each_yields_nothing {A : Type} (body : A -> Gen) (l : list A) (st : State) :
  (forall x s, yielded (body x s) = []) -> yielded (for_each body l st) = [].
Proof.
  intros H. revert st.
  induction l as [|x rest IH]; intros st; cbn; [reflexivity|].
  unfold seq. destruct (raised (body x st)); [apply H|].
  cbn. rewrite H, IH. reflexivity.
Qed.

(** No [UserMessage] makes the generator yield. *)
Lemma user_message_yields_nothing (c : UserContent) (st : State) :
  yielded (process_message (UserMessage c) st) = [].
Proof.
  destruct c as [text|blocks]; cbn; [reflexivity|].
  apply for_each_yields_nothing, user_block_yields_nothing.
Qed.

Lemma process_message_yield_fixed (m : Message) (s s' : State) :
  yielded (process_message m s) = yielded (process_message m s').
Proof.
  destruct m as [c|content| | |]; try reflexivity.
  - rewrite !user_message_yields_nothing. reflexivity.
  - destruct (assistant_message_events content s) as (_ & ->).
    destruct (assistant_message_events content s') as (_ & ->).
    apply flat_map_ext. intros b. apply assistant_block_yield_fixed.
Qed.

(** C10: the events yielded for the messages of a response are the events of
    the first message, then those of the second, and so on, over the messages
    the loop reached (all of them unless it raised); the events of an
    assistant message are those of its blocks, block after block; and the
    initialization marker, the text [hi] and the completion marker of run
    [r1] yield exactly the text event and then the completion event. *)
Theorem events_follow_message_order (ms : list Message) (st : State) :
  (exists n : nat,
      (n <= List.length ms)%nat
      /\ yielded (for_each process_message ms st)
         = flat_map (fun m => yielded (process_message m st)) (firstn n ms)
      /\ (n = List.length ms \/ raised (for_each process_message ms st) <> None))
  /\ (forall content,
        yielded (process_message (AssistantMessage content) st)
        = flat_map (fun b => yielded (assistant_block b st)) content)
  /\ for_each process_message scenario_A st
     = {| yielded := [Data "hi"; ClaudeSessionId "r1"];
          final := set_agent_responses (agent_responses st ++ ["hi"]) st;
          raised := None |}.
Proof.
  split; [|split].
  - apply for_each_prefix, process_message_yield_fixed.
  - intros content. apply assistant_message_events.
  - reflexivity.
Qed.

(** ** Tool use *)

(** C8: every tool-use block of an assistant message is reported by an event
    with the name and the input of the block and the identifier [tool-]
    followed by the id of the block when it has one, and by the decimal of
    the hash of its name otherwise. *)
Theorem tool_use_is_reported (content : list ContentBlock) (st : State)
  (id : option string) (name : string) (input : PyValue) :
  In (ToolUseBlock id name input) content ->
  In (CurrentToolUse name input
        match id with
        | Some i => ("tool-" ++ i)%string
        | None => ("tool-" ++ str_of_int (hash name))%string
        end)
     (yielded (process_message (AssistantMessage content) st)).
Proof.
  intros Hin.
  destruct (assistant_message_events content st) as (_ & ->).
  apply in_flat_map. exists (ToolUseBlock id name input).
  split; [exact Hin|]. cbn. left. destruct id; reflexivity.
Qed.

(** ** Tool results *)




Lemma carries_session_assigns (b : ContentBlock) (v : PyValue) (st : State) :
  carries_session b v ->
  user_block b st = assign (set_local (Some v)) st.
Proof.
  intros H. destruct H as [tid d rest err s o v Ht Hj Hf Hv].
  cbn. rewrite Ht. unfold extract_session. cbn. rewrite Hj, Hf, Hv.
  reflexivity.
Qed.


(** ** The tracked session *)

(** What a loop does to the local, from what its body does to it. *)
Lemma for_each_local {A : Type} (P : A -> PyValue -> Prop) (body : A -> Gen)
  (l : list A) :
  (forall x s,
      local_code_int_session_id (final (body x s)) = local_code_int_session_id s
      \/ exists v, P x v
                   /\ local_code_int_session_id (final (body x s)) = Some v) ->
  forall st,
    local_code_int_session_id (final (for_each body l st))
    = local_code_int_session_id st
    \/ exists x v, In x l /\ P x v
                   /\ local_code_int_session_id (final (for_each body l st)) = Some v.
Proof.
  intros Hbody.
  induction l as [|x rest IH]; intros st; cbn; [left; reflexivity|].
  unfold seq. destruct (raised (body x st)).
  - destruct (Hbody x st) as [E|(v & Hp & E)]; [left; exact E|].
    right. exists x, v. auto.
  - cbn. destruct (IH (final (body x st))) as [E|(y & v & Hin & Hp & E)].
    + rewrite E. destruct (Hbody x st) as [E'|(v & Hp & E')]; [left; exact E'|].
      right. exists x, v. auto.
    + right. exists y, v. auto.
Qed.

Lemma extract_session_local (t : PyValue) (st : State) :
  local_code_int_session_id (final (extract_session t st))
  = local_code_int_session_id st
  \/ exists s o v,
       t = PyStr s /\ json_loads s = Returns (PyDict o)
       /\ dict_get o "code_int_session_id" (PyStr EmptyString) = v
       /\ truthy v = true
       /\ local_code_int_session_id (final (extract_session t st)) = Some v.
Proof.
  unfold extract_session.
  destruct (json_loads_value t) as [r|e] eqn:Ej.
  - destruct r as [| | | | |items|o]; try (left; reflexivity).
    destruct (truthy (dict_get o "code_int_session_id" (PyStr EmptyString)))
      eqn:Ev; [|left; reflexivity].
    right. destruct t; try discriminate Ej. cbn in Ej.
    exists s, o, (dict_get o "code_int_session_id" (PyStr EmptyString)).
    cbn. auto.
  - destruct (is_JSONDecodeError e); left; reflexivity.
Qed.

Lemma user_block_local (b : ContentBlock) (st : State) :
  local_code_int_session_id (final (user_block b st))
  = local_code_int_session_id st
  \/ exists v, carries_session b v
               /\ local_code_int_session_id (final (user_block b st)) = Some v.
Proof.
  destruct b as [| | |tid content err]; try (left; reflexivity). cbn.
  destruct (content_present content); [|left; reflexivity].
  destruct content as [|text|items]; cbn.
  - left; reflexivity.
  - destruct text; left; reflexivity.
  - destruct items as [|[| | | | |l|d] rest]; cbn; try (left; reflexivity).
    destruct (extract_session_local (dict_get d "text" (PyStr EmptyString)) st)
      as [E|(s & o & v & Ht & Hj & Hf & Hv & E)]; [left; exact E|].
    right. exists v. split; [|exact E].
    econstructor; eassumption.
Qed.

Lemma assistant_block_local (b : ContentBlock) (st : State) :
  local_code_int_session_id (final (assistant_block b st))
  = local_code_int_session_id st.
Proof. destruct b; reflexivity. Qed.

Lemma process_message_local (m : Message) (st : State) :
  local_code_int_session_id (final (process_message m st))
  = local_code_int_session_id st
  \/ exists v, message_carries_session m v
               /\ local_code_int_session_id (final (process_message m st)) = Some v.
Proof.
  destruct m as [[text|blocks]|content| | |]; try (left; reflexivity).
  - cbn.
    destruct (for_each_local carries_session user_block blocks user_block_local st)
      as [E|(b & v & Hin & Hc & E)]; [left; exact E|].
    right. exists v. split; [|exact E]. exists blocks, b. auto.
  - cbn.
    destruct (for_each_local (fun _ _ => False) assistant_block content) with (st := st)
      as [E|(b & v & _ & [] & _)]; [|left; exact E].
    intros x s. left. apply assistant_block_local.
Qed.

Lemma carries_session_truthy (b : ContentBlock) (v : PyValue) :
  carries_session b v -> truthy v = true.
Proof. intros H. destruct H. assumption. Qed.


(** Over a loop, the local stays as it was or ends as the session of a tool
    result among the messages. *)
Lemma loop_local (ms : list Message) (st : State) :
  local_code_int_session_id (final (for_each process_message ms st))
  = local_code_int_session_id st
  \/ exists m v,
       In m ms /\ message_carries_session m v /\ truthy v = true
       /\ local_code_int_session_id (final (for_each process_message ms st))
          = Some v.
Proof.
  destruct (for_each_local message_carries_session process_message ms
              process_message_local st)
    as [E|(m & v & Hin & Hc & E)]; [left; exact E|].
  right. exists m, v. repeat split; auto.
  destruct Hc as (blocks & b & _ & _ & Hb).
  eapply carries_session_truthy; eassumption.
Qed.

Lemma receive_local (r : Response) (st : State) :
  local_code_int_session_id (final (receive r st))
  = local_code_int_session_id (final (for_each process_message (messages r) st)).
Proof.
  unfold receive, seq.
  destruct (raised (for_each process_message (messages r) st)); [reflexivity|].
  destruct (failure r); reflexivity.
Qed.



(** ** The incoming sandbox session *)

(** C6: two payloads that agree on every key but [code_int_session_id] make
    [main] yield the same events, end the same way, open its clients with the
    same options and leave the same world and responses. *)
Theorem incoming_sandbox_session_is_ignored (p1 p2 : list (string * PyValue))
  (env : Env) (w : World) :
  (forall k, k <> "code_int_session_id" -> dict_lookup p1 k = dict_lookup p2 k) ->
  yielded (main p1 env w) = yielded (main p2 env w)
  /\ raised (main p1 env w) = raised (main p2 env w)
  /\ opened (final (main p1 env w)) = opened (final (main p2 env w))
  /\ world (final (main p1 env w)) = world (final (main p2 env w))
  /\ agent_responses (final (main p1 env w)) = agent_responses (final (main p2 env w)).
Proof.
  intros H. unfold main.
  assert (Hp : dict_lookup p1 "prompt" = dict_lookup p2 "prompt")
    by (apply H; discriminate).
  assert (Ht : dict_get p1 "claude_session_id" PyNone
               = dict_get p2 "claude_session_id" PyNone)
    by (unfold dict_get; rewrite (H "claude_session_id"); [reflexivity|discriminate]).
  rewrite Hp, Ht.
  destruct (dict_lookup p2 "prompt") as [prompt|].
  - assert (Ha : agree (initial_state p1 w) (initial_state p2 w))
      by (unfold agree; cbn; auto).
    destruct (blind_attempts env prompt (dict_get p2 "claude_session_id" PyNone)
                _ _ Ha) as (Hy & Hr & Ha' & Hl & Hw & Ho).
    auto.
  - cbn. auto.
Qed.

(** ** Recovery from a failed resume *)

Lemma initial_opened (payload : list (string * PyValue)) (w : World) :
  opened (initial_state payload w) = [].
Proof. reflexivity. Qed.

(** C2: when the first attempt of an invocation ends in a [ProcessError] and
    the resume token of the payload is non-empty, [main] runs exactly one
    more attempt, with no resume token, from the state the first one left:
    two clients are opened in all, the events of the second attempt follow
    those of the first, and [main] ends the way the second attempt ends, so
    that a [ProcessError] of the second attempt is raised to the caller. *)
Theorem resume_failure_is_retried_once (payload : list (string * PyValue))
  (env : Env) (w : World) (prompt : PyValue) (message : string) :
  dict_lookup payload "prompt" = Some prompt ->
  truthy (dict_get payload "claude_session_id" PyNone) = true ->
  let token := dict_get payload "claude_session_id" PyNone in
  let first :=
    _process_messages prompt (_build_options env token) (initial_state payload w) in
  let second := _process_messages prompt (_build_options env PyNone) (final first) in
  raised first = Some (ProcessError message) ->
  opened (final (main payload env w))
  = [_build_options env token; _build_options env PyNone]
  /\ resume (_build_options env PyNone) = PyNone
  /\ yielded (main payload env w) = yielded first ++ yielded second
  /\ raised (main payload env w) = raised second
  /\ final (main payload env w) = final second.
Proof.
  intros Hp Ht token first second Hr.
  unfold main. rewrite Hp. fold token.
  unfold attempts, try_except. cbv zeta. fold first. rewrite Hr.
  cbn [is_ProcessError]. unfold on_process_error. fold token.
  assert (Ht' : truthy token = true) by exact Ht.
  rewrite Ht'. fold second. cbn.
  repeat split.
  unfold second.
  destruct (_process_messages_opened prompt (_build_options env PyNone) (final first))
    as (-> & _).
  unfold first.
  destruct (_process_messages_opened prompt (_build_options env token)
              (initial_state payload w)) as (-> & _).
  reflexivity.
Qed.


(** C4: when the resume token of the payload is empty or absent and the first
    attempt ends in a [ProcessError], [main] raises that [ProcessError] with
    what the first attempt yielded and one client opened. *)
Theorem resume_failure_without_token_propagates (payload : list (string * PyValue))
  (env : Env) (w : World) (prompt : PyValue) (message : string) :
  dict_lookup payload "prompt" = Some prompt ->
  truthy (dict_get payload "claude_session_id" PyNone) = false ->
  let token := dict_get payload "claude_session_id" PyNone in
  let first :=
    _process_messages prompt (_build_options env token) (initial_state payload w) in
  raised first = Some (ProcessError message) ->
  main payload env w = first
  /\ raised (main payload env w) = Some (ProcessError message)
  /\ opened (final (main payload env w)) = [_build_options env token].
Proof.
  intros Hp Ht token first Hr.
  assert (E : main payload env w = first).
  { unfold main. rewrite Hp. fold token.
    unfold attempts, try_except. cbv zeta. fold first. rewrite Hr.
    cbn [is_ProcessError]. unfold on_process_error. fold token.
    assert (Ht' : truthy token = false) by exact Ht.
    rewrite Ht'. cbn. rewrite app_nil_r, <- Hr.
    destruct first; reflexivity. }
  rewrite E. repeat split; [exact Hr|].
  unfold first.
  destruct (_process_messages_opened prompt (_build_options env token)
              (initial_state payload w)) as (-> & _).
  reflexivity.
Qed.

(** ** More on the loop *)

Lemma for_each_app {A : Type} (body : A -> Gen) (l1 l2 : list A) (st : State) :
  for_each body (l1 ++ l2) st = seq (for_each body l1) (for_each body l2) st.
Proof.
  revert st. induction l1 as [|x l1 IH]; intros st; cbn.
  - unfold seq. cbn. destruct (for_each body l2 st). reflexivity.
  - unfold seq. destruct (raised (body x st)) eqn:E.
    + rewrite E. reflexivity.
    + rewrite IH. unfold seq. cbn.
      destruct (raised (for_each body l1 (final (body x st)))) eqn:E1; cbn;
        [rewrite E1; reflexivity|].
      rewrite app_assoc. reflexivity.
Qed.

(** An exception of a loop is an exception of its body on one of the items. *)
Lemma for_each_raised {A : Type} (body : A -> Gen) (l : list A) (st : State)
  (e : Exception) :
  raised (for_each body l st) = Some e ->
  exists x s, In x l /\ raised (body x s) = Some e.
Proof.
  revert st. induction l as [|x rest IH]; intros st; cbn; [discriminate|].
  unfold seq. destruct (raised (body x st)) eqn:E.
  - intros H. exists x, st. split; [left; reflexivity|congruence].
  - cbn. intros H. destruct (IH _ H) as (y & s & Hin & Hy).
    exists y, s. auto.
Qed.

Lemma extract_session_raised (t : PyValue) (st : State) (e : Exception) :
  raised (extract_session t st) = Some e ->
  json_loads_value t = Raises e /\ is_JSONDecodeError e = false.
Proof.
  unfold extract_session.
  destruct (json_loads_value t) as [[| | | | |items|d]|e'];
    try discriminate.
  - destruct (truthy _); discriminate.
  - destruct (is_JSONDecodeError e') eqn:E; [discriminate|].
    cbn. intros H. injection H as <-. auto.
Qed.

Lemma user_block_raised (b : ContentBlock) (st : State) (e : Exception) :
  raised (user_block b st) = Some e ->
  exists tool_use_id d rest is_error,
    b = ToolResultBlock tool_use_id (ContentList (PyDict d :: rest)) is_error
    /\ json_loads_value (dict_get d "text" (PyStr EmptyString)) = Raises e
    /\ is_JSONDecodeError e = false.
Proof.
  destruct b as [| | |tid content err]; try discriminate. cbn.
  destruct (content_present content); [|discriminate].
  destruct content as [|text|items]; cbn; try discriminate.
  - destruct text; discriminate.
  - destruct items as [|[| | | | |l|d] rest]; cbn; try discriminate.
    intros H. apply extract_session_raised in H.
    exists tid, d, rest, err. tauto.
Qed.

(** X7: the loop over the messages raises only what [json.loads] raised, on
    the text of the first content item of a tool result of one of the user
    messages, and never a [JSONDecodeError]. *)
Theorem translation_raises_only_from_json_loads (ms : list Message) (st : State)
  (e : Exception) :
  raised (for_each process_message ms st) = Some e ->
  is_JSONDecodeError e = false
  /\ exists blocks tool_use_id d rest is_error,
       In (UserMessage (UserBlocks blocks)) ms
       /\ In (ToolResultBlock tool_use_id (ContentList (PyDict d :: rest)) is_error)
            blocks
       /\ json_loads_value (dict_get d "text" (PyStr EmptyString)) = Raises e.
Proof.
  intros H.
  destruct (for_each_raised _ _ _ _ H) as (m & s & Hm & Hr).
  destruct m as [[text|blocks]|content| | |]; try discriminate Hr.
  - cbn in Hr.
    destruct (for_each_raised _ _ _ _ Hr) as (b & s' & Hb & Hr').
    destruct (user_block_raised _ _ _ Hr') as (tid & d & rest & err & -> & Hj & He).
    split; [exact He|].
    exists blocks, tid, d, rest, err. auto.
  - destruct (assistant_message_events content s) as (Hnone & _).
    rewrite Hnone in Hr. discriminate Hr.
Qed.


(** X9: the loop does for a list of messages what it does for the list
    without its system messages, stream events and plain-text user
    messages. *)
Theorem silent_messages_change_nothing (ms : list Message) (st : State) :
  for_each process_message (filter (fun m => negb (silent m)) ms) st
  = for_each process_message ms st.
Proof.
  revert st. induction ms as [|m ms IH]; intros st; [reflexivity|].
  cbn [filter].
  destruct (silent m) eqn:E; cbn [negb].
  - rewrite IH.
    assert (Hp : process_message m = pass)
      by (destruct m as [[text|blocks]|content| | |]; try discriminate E; reflexivity).
    cbn [for_each]. rewrite Hp. unfold seq. cbn.
    destruct (for_each process_message ms st). reflexivity.
  - cbn [for_each]. unfold seq.
    destruct (raised (process_message m st)); [reflexivity|].
    rewrite IH. reflexivity.
Qed.

(** X10: when the messages before it raise nothing, a user message whose one
    block carries the session [v] leaves the local bound to [v], whatever it
    held before: the last session delivered is the one kept. *)
Theorem last_session_is_kept (ms : list Message) (b : ContentBlock) (v : PyValue)
  (st : State) :
  raised (for_each process_message ms st) = None ->
  carries_session b v ->
  local_code_int_session_id
    (final (for_each process_message (ms ++ [UserMessage (UserBlocks [b])]) st))
  = Some v
  /\ raised (for_each process_message (ms ++ [UserMessage (UserBlocks [b])]) st)
     = None.
Proof.
  intros Hr Hc.
  rewrite for_each_app. rewrite seq_no_raise by exact Hr.
  cbn. unfold seq.
  rewrite (carries_session_assigns b v _ Hc). cbn. auto.
Qed.

(** ** The transcript *)

Lemma data_texts_app (l1 l2 : list Event) :
  data_texts (l1 ++ l2) = data_texts l1 ++ data_texts l2.
Proof.
  induction l1 as [|[name input id|text|session_id] l1 IH]; cbn;
    [reflexivity|exact IH|rewrite IH; reflexivity|exact IH].
Qed.

Lemma transcribes_pass : transcribes pass.
Proof. intros st. cbn. rewrite app_nil_r. reflexivity. Qed.

Lemma transcribes_raise (e : Exception) : transcribes (raise e).
Proof. intros st. cbn. rewrite app_nil_r. reflexivity. Qed.

Lemma transcribes_set_local (v : option PyValue) : transcribes (assign (set_local v)).
Proof. intros st. cbn. rewrite app_nil_r. reflexivity. Qed.

Lemma transcribes_seq (g1 g2 : Gen) :
  transcribes g1 -> transcribes g2 -> transcribes (seq g1 g2).
Proof.
  intros H1 H2 st. unfold seq.
  destruct (raised (g1 st)); [apply H1|]. cbn.
  rewrite H2, H1, data_texts_app, app_assoc. reflexivity.
Qed.

Lemma transcribes_for_each {A : Type} (body : A -> Gen) (l : list A) :
  (forall x, transcribes (body x)) -> transcribes (for_each body l).
Proof.
  intros H. induction l as [|x rest IH]; cbn.
  - apply transcribes_pass.
  - apply transcribes_seq; auto.
Qed.

Lemma transcribes_try_except (body : Gen) (catches : Exception -> bool)
  (handler : Exception -> Gen) :
  transcribes body -> (forall e, transcribes (handler e)) ->
  transcribes (try_except body catches handler).
Proof.
  intros Hb Hh st. unfold try_except. cbv zeta.
  destruct (raised (body st)) as [e|]; [|apply Hb].
  destruct (catches e); [|apply Hb]. cbn.
  rewrite Hh, Hb, data_texts_app, app_assoc. reflexivity.
Qed.

Lemma transcribes_assistant_block (b : ContentBlock) : transcribes (assistant_block b).
Proof.
  destruct b; intros st; cbn; try (rewrite app_nil_r; reflexivity).
  reflexivity.
Qed.

Lemma transcribes_extract_session (t : PyValue) : transcribes (extract_session t).
Proof.
  unfold extract_session.
  destruct (json_loads_value t) as [[| | | | |items|d]|e];
    try apply transcribes_pass.
  - destruct (truthy _); [apply transcribes_set_local|apply transcribes_pass].
  - destruct (is_JSONDecodeError e); [apply transcribes_pass|apply transcribes_raise].
Qed.

Lemma transcribes_user_block (b : ContentBlock) : transcribes (user_block b).
Proof.
  destruct b as [| | |tid content err]; cbn; try apply transcribes_pass.
  destruct (content_present content); [|apply transcribes_pass].
  destruct (content_first content) as [[| | | | |items|d]|];
    try apply transcribes_pass.
  apply transcribes_extract_session.
Qed.

Lemma transcribes_process_message (m : Message) : transcribes (process_message m).
Proof.
  destruct m as [[text|blocks]|content| | |]; cbn; try apply transcribes_pass.
  - apply transcribes_for_each, transcribes_user_block.
  - apply transcribes_for_each, transcribes_assistant_block.
Qed.

Lemma transcribes__process_messages (prompt : PyValue) (options : ClaudeAgentOptions) :
  transcribes (_process_messages prompt options).
Proof.
  intros st. unfold _process_messages.
  destruct (client options prompt (world st)) as [r w].
  assert (H : transcribes (receive r)).
  { unfold receive. apply transcribes_seq.
    - apply transcribes_for_each, transcribes_process_message.
    - destruct (failure r); [apply transcribes_raise|apply transcribes_pass]. }
  rewrite H. reflexivity.
Qed.

(** X6: when [main] is done, with or without an exception and with or
    without a second attempt, [agent_responses] holds exactly the texts of
    the [data] events that [main] yielded, in the order they were yielded. *)
Theorem transcript_is_the_text_yielded (payload : list (string * PyValue))
  (env : Env) (w : World) :
  agent_responses (final (main payload env w))
  = data_texts (yielded (main payload env w)).
Proof.
  unfold main.
  destruct (dict_lookup payload "prompt") as [prompt|]; [|reflexivity].
  assert (H : transcribes
                (attempts env prompt (dict_get payload "claude_session_id" PyNone))).
  { unfold attempts. apply transcribes_try_except.
    - apply transcribes__process_messages.
    - intros e. unfold on_process_error.
      destruct (truthy _);
        [apply transcribes__process_messages|apply transcribes_raise]. }
  rewrite H. reflexivity.
Qed.

(** ** The clients of an invocation *)


(** X5: [main] reads two keys of the payload: payloads with the same prompt
    and the same [claude_session_id] (absent or [None] alike) make it yield
    the same events, end the same way, open its clients with the same options
    and leave the same world and responses, whatever else they hold. *)
Theorem main_reads_prompt_and_resume_token_only (p1 p2 : list (string * PyValue))
  (env : Env) (w : World) :
  dict_lookup p1 "prompt" = dict_lookup p2 "prompt" ->
  dict_get p1 "claude_session_id" PyNone = dict_get p2 "claude_session_id" PyNone ->
  yielded (main p1 env w) = yielded (main p2 env w)
  /\ raised (main p1 env w) = raised (main p2 env w)
  /\ opened (final (main p1 env w)) = opened (final (main p2 env w))
  /\ world (final (main p1 env w)) = world (final (main p2 env w))
  /\ agent_responses (final (main p1 env w)) = agent_responses (final (main p2 env w)).
Proof.
  intros Hp Ht. unfold main.
  rewrite Hp, Ht.
  destruct (dict_lookup p2 "prompt") as [prompt|].
  - assert (Ha : agree (initial_state p1 w) (initial_state p2 w))
      by (unfold agree; cbn; auto).
    destruct (blind_attempts env prompt (dict_get p2 "claude_session_id" PyNone)
                _ _ Ha) as (Hy & Hr & Ha' & Hl & Hw & Ho).
    auto.
  - cbn. auto.
Qed.

(** X4: when the first client delivers messages that raise nothing, then the
    completion marker of a run, and ends without exception, [main] yields the
    events of those messages and then the [claude_session_id] event of that
    run, raises nothing and opens no second client, whatever the resume
    token. *)
Theorem completed_run_ends_with_its_session (payload : list (string * PyValue))
  (env : Env) (w w' : World) (prompt : PyValue) (ms : list Message)
  (session_id : string) :
  dict_lookup payload "prompt" = Some prompt ->
  let options := _build_options env (dict_get payload "claude_session_id" PyNone) in
  let entered := enter options w' (initial_state payload w) in
  client options prompt w = (completed ms session_id, w') ->
  raised (for_each process_message ms entered) = None ->
  yielded (main payload env w)
  = yielded (for_each process_message ms entered) ++ [ClaudeSessionId session_id]
  /\ raised (main payload env w) = None
  /\ opened (final (main payload env w)) = [options]
  /\ world (final (main payload env w)) = w'.
Proof.
  intros Hp options entered Hc Hr.
  assert (E : _process_messages prompt options (initial_state payload w)
              = {| yielded := yielded (for_each process_message ms entered)
                              ++ [ClaudeSessionId session_id];
                   final := final (for_each process_message ms entered);
                   raised := None |}).
  { unfold _process_messages.
    change (world (initial_state payload w)) with w. rewrite Hc.
    fold entered. unfold receive, completed. cbn [messages failure].
    unfold seq at 1. rewrite for_each_app, seq_no_raise by exact Hr.
    cbn. rewrite !app_nil_r. reflexivity. }
  unfold main. rewrite Hp.
  unfold attempts, try_except. cbv zeta.
  change (_build_options env (dict_get payload "claude_session_id" PyNone))
    with options.
  rewrite E. cbn.
  destruct (local_only_for_each process_message ms local_only_process_message entered)
    as (Hw & Ho & _).
  rewrite Ho, Hw. auto.
Qed.

(** ** Tool use identifiers *)

Lemma to_int_proper (z : Z) :
  Z.to_int z <> Decimal.Pos Decimal.Nil /\ Z.to_int z <> Decimal.Neg Decimal.Nil.
Proof.
  destruct z as [|p|p]; cbn; split; try discriminate;
    intros H; injection H as H; exact (DecimalPos.Unsigned.to_uint_nonnil p H).
Qed.

Lemma str_of_int_injective (a b : Z) : str_of_int a = str_of_int b -> a = b.
Proof.
  unfold str_of_int. intros H.
  apply (f_equal NilZero.int_of_string) in H.
  destruct (to_int_proper a) as (Ha1 & Ha2).
  destruct (to_int_proper b) as (Hb1 & Hb2).
  rewrite !NilZero.isi in H by assumption.
  injection H as H.
  apply (f_equal Z.of_int) in H.
  rewrite !DecimalZ.of_to in H. exact H.
Qed.

(** X11: every tool use identifier starts with [tool-]; blocks with different
    ids get different identifiers, and so do blocks without an id whose names
    have different hashes. *)
Theorem tool_use_ids_tell_blocks_apart :
  (forall id name, prefix "tool-" (toolUseId id name) = true)
  /\ (forall i1 i2 n1 n2,
        toolUseId (Some i1) n1 = toolUseId (Some i2) n2 -> i1 = i2)
  /\ (forall n1 n2,
        toolUseId None n1 = toolUseId None n2 -> hash n1 = hash n2).
Proof.
  split; [|split].
  - intros [i|] name; apply prefix_correct; unfold toolUseId;
      [destruct i|destruct (str_of_int (hash name))]; reflexivity.
  - intros i1 i2 n1 n2 H. cbn in H. injection H as H. exact H.
  - intros n1 n2 H. cbn in H. injection H as H.
    apply str_of_int_injective. exact H.
Qed.

(** ** What reaches the caller *)

(** X2: whatever happens next, the events of the first attempt stay yielded:
    what [main] yields starts with them, and goes on only with the events of
    a second attempt. *)
Theorem first_attempt_events_are_kept (payload : list (string * PyValue))
  (env : Env) (w : World) (prompt : PyValue) :
  dict_lookup payload "prompt" = Some prompt ->
  let token := dict_get payload "claude_session_id" PyNone in
  let first :=
    _process_messages prompt (_build_options env token) (initial_state payload w) in
  let second := _process_messages prompt (_build_options env PyNone) (final first) in
  yielded (main payload env w) = yielded first
  \/ yielded (main payload env w) = yielded first ++ yielded second.
Proof.
  intros Hp token first second.
  unfold main. rewrite Hp. fold token.
  unfold attempts, try_except. cbv zeta. fold first.
  destruct (raised first) as [e|]; [|left; reflexivity].
  destruct (is_ProcessError e); [|left; reflexivity].
  unfold on_process_error. fold token.
  destruct (truthy token); cbn.
  - right. reflexivity.
  - left. apply app_nil_r.
Qed.

(** X3: when the payload has a non-empty resume token and [main] raises a
    [ProcessError], the first attempt ended in a [ProcessError], a second
    client was opened with no resume token, and the [ProcessError] raised is
    the one of the second attempt. *)
Theorem process_error_with_token_comes_from_retry (payload : list (string * PyValue))
  (env : Env) (w : World) (prompt : PyValue) (message : string) :
  dict_lookup payload "prompt" = Some prompt ->
  truthy (dict_get payload "claude_session_id" PyNone) = true ->
  raised (main payload env w) = Some (ProcessError message) ->
  let token := dict_get payload "claude_session_id" PyNone in
  let first :=
    _process_messages prompt (_build_options env token) (initial_state payload w) in
  let second := _process_messages prompt (_build_options env PyNone) (final first) in
  (exists message1, raised first = Some (ProcessError message1))
  /\ raised second = Some (ProcessError message)
  /\ opened (final (main payload env w))
     = [_build_options env token; _build_options env PyNone].
Proof.
  intros Hp Ht Hr token first second.
  assert (Ht' : truthy token = true) by exact Ht.
  revert Hr. unfold main. rewrite Hp. fold token.
  unfold attempts, try_except. cbv zeta. fold first.
  destruct (raised first) as [e|] eqn:E; [|rewrite E; discriminate].
  destruct e as [message1| | | | | | | |]; cbn [is_ProcessError];
    try (rewrite E; discriminate).
  unfold on_process_error. fold token. rewrite Ht'. fold second. cbn.
  intros Hr. split; [eauto|]. split; [exact Hr|].
  unfold second.
  destruct (_process_messages_opened prompt (_build_options env PyNone) (final first))
    as (-> & _).
  unfold first.
  destruct (_process_messages_opened prompt (_build_options env token)
              (initial_state payload w)) as (-> & _).
  reflexivity.
Qed.

(** X13: the session bound during a first attempt is not carried into the
    retry: when a second attempt runs, the local that [main] ends with is
    unbound or is the session of a tool result that the second client
    delivered. *)
Theorem retry_starts_without_session (payload : list (string * PyValue))
  (env : Env) (w w2 : World) (prompt : PyValue) (message : string)
  (r2 : Response) :
  dict_lookup payload "prompt" = Some prompt ->
  truthy (dict_get payload "claude_session_id" PyNone) = true ->
  let token := dict_get payload "claude_session_id" PyNone in
  let first :=
    _process_messages prompt (_build_options env token) (initial_state payload w) in
  raised first = Some (ProcessError message) ->
  client (_build_options env PyNone) prompt (world (final first)) = (r2, w2) ->
  local_code_int_session_id (final (main payload env w)) = None
  \/ exists m v,
       In m (messages r2) /\ message_carries_session m v /\ truthy v = true
       /\ local_code_int_session_id (final (main payload env w)) = Some v.
Proof.
  intros Hp Ht token first Hr Hc.
  assert (Ht' : truthy token = true) by exact Ht.
  assert (E0 : local_code_int_session_id (final (main payload env w))
               = local_code_int_session_id
                   (final (for_each process_message (messages r2)
                             (enter (_build_options env PyNone) w2 (final first))))).
  { unfold main. rewrite Hp. fold token.
    unfold attempts, try_except. cbv zeta. fold first. rewrite Hr.
    cbn [is_ProcessError]. unfold on_process_error. fold token. rewrite Ht'.
    cbn [final]. unfold _process_messages. rewrite Hc.
    apply receive_local. }
  rewrite E0.
  destruct (loop_local (messages r2)
              (enter (_build_options env PyNone) w2 (final first)))
    as [E|(m & v & Hin & Hm & Hv & E)]; rewrite E.
  - left. reflexivity.
  - right. exists m, v. auto.
Qed.

End Driver.

Arguments yielded {World} _.
Arguments final {World} _.
Arguments raised {World} _.
Arguments agent_responses {World} _.
Arguments code_int_session_id {World} _.
Arguments local_code_int_session_id {World} _.
Arguments world {World} _.
Arguments opened {World} _.
Arguments set_local {World} v st.
Arguments initial_state {World} payload w.

(** ** The decoder never runs out of fuel *)

Module JsonFacts.
Import Json.
Local Open Scope nat_scope.

Lemma skip_ws_length (s : string) : String.length (skip_ws s) <= String.length s.
Proof.
  induction s as [|c r IH]; cbn; [lia|].
  destruct (is_ws c); cbn; lia.
Qed.

Lemma strip_prefix_length (p s r : string) :
  strip_prefix p s = Some r -> String.length s = String.length p + String.length r.
Proof.
  revert s. induction p as [|a p IH]; intros s H; cbn in *.
  - injection H as ->. reflexivity.
  - destruct s as [|b s]; [discriminate|].
    destruct (Ascii.eqb a b); [|discriminate].
    cbn. rewrite (IH _ H). reflexivity.
Qed.

Lemma prepend_some (p t rest : string) (r : option (string * string)) :
  prepend p r = Some (t, rest) -> exists body, r = Some (body, rest).
Proof.
  destruct r as [[body rest']|]; cbn; [|discriminate].
  intros H. injection H as _ ->. eauto.
Qed.

Lemma scanstring_length_aux (n : nat) :
  forall s t r, String.length s <= n -> scanstring s = Some (t, r) ->
                String.length r < String.length s.
Proof.
  induction n as [|n IH]; intros s t r Hn H.
  - destruct s; [discriminate|cbn in Hn; lia].
  - destruct s as [|c s]; [discriminate|].
    cbn in Hn. cbn [scanstring] in H.
    destruct (Ascii.eqb c dquote).
    { injection H as _ ->. cbn. lia. }
    destruct (Ascii.eqb c backslash).
    + destruct s as [|e r1]; [discriminate|].
      destruct (Ascii.eqb e "u"%char).
      * destruct r1 as [|h1 [|h2 [|h3 [|h4 r2]]]]; try discriminate.
        destruct (hex4 h1 h2 h3 h4) as [uni|]; [|discriminate].
        cbn in Hn.
        assert (Hr2 : forall t', scanstring r2 = Some (t', r) ->
                                 String.length r < String.length r2)
          by (intros t' Ht'; apply (IH r2 t' r); [lia|exact Ht']).
        destruct r2 as [|b [|u [|g1 [|g2 [|g3 [|g4 r3]]]]]];
          try (apply prepend_some in H; destruct H as (body & H);
               apply Hr2 in H; cbn in *; lia).
        destruct (is_high_surrogate uni && Ascii.eqb b backslash
                  && Ascii.eqb u "u"%char)%bool.
        -- destruct (hex4 g1 g2 g3 g4) as [uni2|]; [|discriminate].
           destruct (is_low_surrogate uni2).
           ++ apply prepend_some in H. destruct H as (body & H).
              apply IH in H; cbn in *; lia.
           ++ apply prepend_some in H. destruct H as (body & H).
              apply Hr2 in H; cbn in *; lia.
        -- apply prepend_some in H. destruct H as (body & H).
           apply Hr2 in H; cbn in *; lia.
      * destruct (simple_escape e); [|discriminate].
        apply prepend_some in H. destruct H as (body & H).
        apply IH in H; cbn in *; lia.
    + destruct (N_of_ascii c <? 32)%N; [discriminate|].
      apply prepend_some in H. destruct H as (body & H).
      apply IH in H; cbn in *; lia.
Qed.

Lemma scanstring_length (s t r : string) :
  scanstring s = Some (t, r) -> String.length r < String.length s.
Proof. apply (scanstring_length_aux (String.length s)). lia. Qed.

Lemma scan_digits_length (s : string) :
  forall acc n v m r, scan_digits s acc n = (v, m, r) ->
                      String.length r <= String.length s.
Proof.
  induction s as [|c s IH]; intros acc n v m r H; cbn in H.
  - injection H as _ _ <-. cbn. lia.
  - destruct (digit_val c).
    + apply IH in H. cbn. lia.
    + injection H as _ _ <-. cbn. lia.
Qed.

Lemma scan_int_part_length (s : string) (v : Z) (r : string) :
  scan_int_part s = Some (v, r) -> String.length r < String.length s.
Proof.
  unfold scan_int_part.
  destruct s as [|c s]; [discriminate|].
  destruct (digit_val c) as [d|] eqn:Ed; [|discriminate].
  destruct (d =? 0)%Z.
  - intros H. injection H as _ <-. cbn. lia.
  - destruct (scan_digits (String c s) 0 0) as [[v' m] rest] eqn:E.
    intros H. injection H as _ <-.
    cbn [scan_digits] in E. rewrite Ed in E.
    apply scan_digits_length in E. cbn. lia.
Qed.

Lemma scan_frac_length (s : string) (f : option (Z * nat)) (r : string) :
  scan_frac s = (f, r) -> String.length r <= String.length s.
Proof.
  destruct s as [|c s]; cbn.
  - intros H. injection H as _ <-. cbn. lia.
  - destruct (Ascii.eqb c "."%char).
    + destruct (scan_digits s 0 0) as [[v m] rest] eqn:E.
      apply scan_digits_length in E.
      destruct m; intros H; injection H as _ <-; cbn; lia.
    + intros H. injection H as _ <-. cbn. lia.
Qed.

Lemma scan_exp_length (s : string) (e : option Z) (r : string) :
  scan_exp s = (e, r) -> String.length r <= String.length s.
Proof.
  destruct s as [|c s]; cbn.
  - intros H. injection H as _ <-. cbn. lia.
  - destruct (Ascii.eqb c "e"%char || Ascii.eqb c "E"%char)%bool.
    + assert (Hs : forall neg r1,
                 String.length r1 <= String.length s ->
                 (let '(v, n, rest) := scan_digits r1 0 0 in
                  match n with
                  | O => (None, String c s)
                  | S _ => (Some (if neg : bool then (- v)%Z else v), rest)
                  end) = (e, r) ->
                 String.length r <= S (String.length s)).
      { intros neg r1 Hr1.
        destruct (scan_digits r1 0 0) as [[v m] rest] eqn:E.
        apply scan_digits_length in E.
        destruct m; intros H; injection H as _ <-; cbn; lia. }
      destruct s as [|sg r'].
      * apply (Hs false). lia.
      * destruct (Ascii.eqb sg "-"%char); [apply (Hs true); cbn; lia|].
        destruct (Ascii.eqb sg "+"%char); apply (Hs false); cbn; lia.
    + intros H. injection H as _ <-. cbn. lia.
Qed.

Lemma match_number_length (s : string) (v : PyValue) (r : string) :
  match_number s = Some (v, r) -> String.length r < String.length s.
Proof.
  unfold match_number.
  assert (Hs : forall neg s1,
             String.length s1 <= String.length s ->
             match scan_int_part s1 with
             | None => None
             | Some (ip, s2) =>
                 let '(frac, s3) := scan_frac s2 in
                 let '(ex, s4) := scan_exp s3 in
                 let sign := fun z : Z => if neg : bool then (- z)%Z else z in
                 match frac, ex with
                 | None, None => Some (PyInt (sign ip), s4)
                 | _, _ =>
                     let '(fv, fn) := match frac with Some p => p | None => (0%Z, O) end in
                     let e := match ex with Some e => e | None => 0%Z end in
                     Some (PyFloat (FloatDec (sign (ip * 10 ^ Z.of_nat fn + fv)%Z)
                                      (e - Z.of_nat fn)%Z), s4)
                 end
             end = Some (v, r) ->
             String.length r < String.length s).
  { intros neg s1 Hs1.
    destruct (scan_int_part s1) as [[ip s2]|] eqn:Ei; [|discriminate].
    apply scan_int_part_length in Ei.
    destruct (scan_frac s2) as [frac s3] eqn:Ef. apply scan_frac_length in Ef.
    destruct (scan_exp s3) as [ex s4] eqn:Ee. apply scan_exp_length in Ee.
    destruct frac as [[fv fn]|], ex as [e|]; cbn;
      intros H; injection H as _ <-; lia. }
  destruct s as [|c s'].
  - apply (Hs false). lia.
  - destruct (Ascii.eqb c "-"%char).
    + apply (Hs true). cbn. lia.
    + apply (Hs false). lia.
Qed.

Lemma scan_constant_length (s : string) (v : PyValue) (r : string) :
  scan_constant s = Some (v, r) -> String.length r < String.length s.
Proof.
  unfold scan_constant.
  repeat match goal with
         | |- context [strip_prefix ?p s] =>
             let E := fresh "E" in
             destruct (strip_prefix p s) eqn:E;
             [apply strip_prefix_length in E; cbn in E;
              intros H; injection H as _ <-; lia|]
         end.
  apply match_number_length.
Qed.

Ltac skip_ws_bound r :=
  let H := fresh "Hws" in
  pose proof (skip_ws_length r) as H.

(** Scanning a value consumes at least one character. *)
Lemma scan_progress (f : nat) :
  (forall s v r, scan_once f s = Some (v, r) -> String.length r < String.length s)
  /\ (forall acc s v r, array_loop f acc s = Some (v, r) ->
                        String.length r < String.length s)
  /\ (forall d s v r, object_loop f d s = Some (v, r) ->
                      String.length r < String.length s).
Proof.
  induction f as [|f (IHs & IHa & IHo)];
    [repeat split; intros; discriminate|].
  split; [|split].
  - intros s v r H. cbn [scan_once] in H.
    destruct s as [|c s]; [discriminate|].
    destruct (Ascii.eqb c dquote).
    { destruct (scanstring s) as [[text rest]|] eqn:E; [|discriminate].
      injection H as _ <-. apply scanstring_length in E. cbn. lia. }
    destruct (Ascii.eqb c "{"%char).
    { skip_ws_bound s. destruct (skip_ws s) as [|c1 r1]; [discriminate|].
      destruct (Ascii.eqb c1 "}"%char).
      { injection H as _ <-. cbn in *. lia. }
      destruct (Ascii.eqb c1 dquote); [|discriminate].
      apply IHo in H. cbn in *. lia. }
    destruct (Ascii.eqb c "["%char).
    { skip_ws_bound s. destruct (skip_ws s) as [|c1 r1]; [discriminate|].
      destruct (Ascii.eqb c1 "]"%char).
      { injection H as _ <-. cbn in *. lia. }
      apply IHa in H. cbn in *. lia. }
    apply scan_constant_length in H. exact H.
  - intros acc s v r H. cbn [array_loop] in H.
    destruct (scan_once f s) as [[v1 s1]|] eqn:E; [|discriminate].
    apply IHs in E. skip_ws_bound s1.
    destruct (skip_ws s1) as [|c r1]; [discriminate|].
    destruct (Ascii.eqb c "]"%char).
    { injection H as _ <-. cbn in *. lia. }
    destruct (Ascii.eqb c ","%char); [|discriminate].
    apply IHa in H. skip_ws_bound r1. cbn in *. lia.
  - intros d s v r H. cbn [object_loop] in H.
    destruct (scanstring s) as [[key s1]|] eqn:E; [|discriminate].
    apply scanstring_length in E. skip_ws_bound s1.
    destruct (skip_ws s1) as [|c r1]; [discriminate|].
    destruct (Ascii.eqb c ":"%char); [|discriminate].
    destruct (scan_once f (skip_ws r1)) as [[v1 s2]|] eqn:E2; [|discriminate].
    apply IHs in E2. skip_ws_bound r1. skip_ws_bound s2.
    destruct (skip_ws s2) as [|c2 r2]; [discriminate|].
    destruct (Ascii.eqb c2 "}"%char).
    { injection H as _ <-. cbn in *. lia. }
    destruct (Ascii.eqb c2 ","%char); [|discriminate].
    skip_ws_bound r2.
    destruct (skip_ws r2) as [|c3 r3]; [discriminate|].
    destruct (Ascii.eqb c3 dquote); [|discriminate].
    apply IHo in H. cbn in *. lia.
Qed.

(** A scan that succeeds with some fuel succeeds, with the same result, with
    any fuel above twice the length of the text. *)
Lemma scan_enough (f : nat) :
  (forall s x g, scan_once f s = Some x -> 2 * String.length s + 2 <= g ->
                 scan_once g s = Some x)
  /\ (forall acc s x g, array_loop f acc s = Some x ->
                        2 * String.length s + 3 <= g ->
                        array_loop g acc s = Some x)
  /\ (forall d s x g, object_loop f d s = Some x ->
                      2 * String.length s + 3 <= g ->
                      object_loop g d s = Some x).
Proof.
  induction f as [|f (IHs & IHa & IHo)];
    [repeat split; intros; discriminate|].
  split; [|split].
  - intros s x g H Hg.
    destruct g as [|g]; [lia|].
    cbn [scan_once] in *.
    destruct s as [|c s]; [discriminate|].
    destruct (Ascii.eqb c dquote); [exact H|].
    destruct (Ascii.eqb c "{"%char).
    { skip_ws_bound s. destruct (skip_ws s) as [|c1 r1]; [discriminate|].
      destruct (Ascii.eqb c1 "}"%char); [exact H|].
      destruct (Ascii.eqb c1 dquote); [|discriminate].
      apply IHo; [exact H|]. cbn in *. lia. }
    destruct (Ascii.eqb c "["%char).
    { skip_ws_bound s. destruct (skip_ws s) as [|c1 r1]; [discriminate|].
      destruct (Ascii.eqb c1 "]"%char); [exact H|].
      apply IHa; [exact H|]. cbn in *. lia. }
    exact H.
  - intros acc s x g H Hg.
    destruct g as [|g]; [lia|].
    cbn [array_loop] in *.
    destruct (scan_once f s) as [[v1 s1]|] eqn:E; [|discriminate].
    rewrite (IHs s (v1, s1) g E) by lia.
    apply (proj1 (scan_progress f)) in E. skip_ws_bound s1.
    destruct (skip_ws s1) as [|c r1]; [discriminate|].
    destruct (Ascii.eqb c "]"%char); [exact H|].
    destruct (Ascii.eqb c ","%char); [|discriminate].
    apply IHa; [exact H|]. skip_ws_bound r1. cbn in *. lia.
  - intros d s x g H Hg.
    destruct g as [|g]; [lia|].
    cbn [object_loop] in *.
    destruct (scanstring s) as [[key s1]|] eqn:E; [|discriminate].
    apply scanstring_length in E. skip_ws_bound s1.
    destruct (skip_ws s1) as [|c r1]; [discriminate|].
    destruct (Ascii.eqb c ":"%char); [|discriminate].
    skip_ws_bound r1.
    destruct (scan_once f (skip_ws r1)) as [[v1 s2]|] eqn:E2; [|discriminate].
    rewrite (IHs (skip_ws r1) (v1, s2) g E2) by (cbn in *; lia).
    apply (proj1 (scan_progress f)) in E2. skip_ws_bound s2.
    destruct (skip_ws s2) as [|c2 r2]; [discriminate|].
    destruct (Ascii.eqb c2 "}"%char); [exact H|].
    destruct (Ascii.eqb c2 ","%char); [|discriminate].
    skip_ws_bound r2.
    destruct (skip_ws r2) as [|c3 r3]; [discriminate|].
    destruct (Ascii.eqb c3 dquote); [|discriminate].
    apply IHo; [exact H|]. cbn in *. lia.
Qed.

(** [loads] never runs out of fuel: it decodes a text exactly when some
    amount of fuel does. *)
Theorem loads_has_enough_fuel (s : string) (v : PyValue) :
  loads s = Some v
  <-> exists f r, scan_once f (skip_ws s) = Some (v, r) /\ skip_ws r = EmptyString.
Proof.
  unfold loads. split.
  - destruct (scan_once (2 * String.length s + 2) (skip_ws s)) as [[v' r]|] eqn:E;
      [|discriminate].
    destruct (skip_ws r) eqn:Er; [|discriminate].
    intros H. injection H as <-. eauto.
  - intros (f & r & H & Hr).
    rewrite (proj1 (scan_enough f) (skip_ws s) (v, r) (2 * String.length s + 2) H).
    + rewrite Hr. reflexivity.
    + pose proof (skip_ws_length s). lia.
Qed.

End JsonFacts.

(** ** The sub-agent catalog against the allowed tools *)

Ltac is_in := cbn; auto 20.
Ltac not_in := cbn; intuition discriminate.
Ltac each tac := repeat (apply Forall_cons; [tac|]); apply Forall_nil.

(** C7 (as the program has it): whatever the environment, no entry of the
    catalog lists [Task]; every tool of an entry is an allowed tool of the
    run, or the gateway wildcard, or one of the built-in [Read], [Grep] and
    [Glob]; the catalog is the single entry [code-analyst], whose
    [mcp__codeint__execute_code] and [mcp__codeint__execute_command] are
    allowed tools of the run; the built-in tools are never allowed tools of
    the run, and the gateway wildcard is one exactly when the gateway is
    available. *)
Theorem subagent_tools_against_allowed_tools (env : Env) (resume_id : PyValue) :
  let options := _build_options env resume_id in
  Forall (fun entry =>
            ~ In "Task" (tools (snd entry))
            /\ Forall (fun t => In t (allowed_tools options)
                               \/ t = "mcp__gateway__*"
                               \/ In t ["Read"; "Grep"; "Glob"])
                 (tools (snd entry)))
    (agents options)
  /\ map fst (agents options) = ["code-analyst"]
  /\ Forall (fun entry =>
              In "mcp__codeint__execute_code" (tools (snd entry))
              /\ In "mcp__codeint__execute_command" (tools (snd entry)))
      (agents options)
  /\ incl ["mcp__codeint__execute_code"; "mcp__codeint__execute_command"]
       (allowed_tools options)
  /\ Forall (fun t => ~ In t (allowed_tools options)) ["Read"; "Grep"; "Glob"]
  /\ (In "mcp__gateway__*" (allowed_tools options) <-> gateway_available env = true).
Proof.
  cbv zeta. unfold _build_options. cbn [agents allowed_tools].
  unfold build_allowed_tools, get_subagent_definitions.
  destruct (gateway_available env).
  - split; [|split; [|split; [|split; [|split]]]].
    + each ltac:(cbn [snd tools]; split; [not_in | each is_in]).
    + reflexivity.
    + each ltac:(split; is_in).
    + intros t Ht. cbn in Ht. destruct Ht as [<-|[<-|[]]]; is_in.
    + each not_in.
    + split; [reflexivity | intros _; is_in].
  - split; [|split; [|split; [|split; [|split]]]].
    + each ltac:(cbn [snd tools]; split; [not_in | each is_in]).
    + reflexivity.
    + each ltac:(split; is_in).
    + intros t Ht. cbn in Ht. destruct Ht as [<-|[<-|[]]]; is_in.
    + each not_in.
    + split; [not_in | discriminate].
Qed.

Lemma str_truthy_iff (s : string) : str_truthy s = true <-> s <> EmptyString.
Proof.
  destruct s; cbn; split; intros H; try discriminate; try reflexivity.
  contradiction H. reflexivity.
Qed.

(** The gateway is available exactly when [STACK_NAME], the URL stored for
    it and the access token are all non-empty. *)
Lemma gateway_available_iff (env : Env) :
  gateway_available env = true
  <-> exists stack,
        STACK_NAME env = Some stack
        /\ stack <> EmptyString
        /\ get_ssm_parameter env ("/" ++ stack ++ "/gateway_url")%string <> EmptyString
        /\ get_gateway_access_token env <> EmptyString.
Proof.
  unfold gateway_available, access_token, gateway_url.
  destruct (STACK_NAME env) as [stack|].
  - set (url := get_ssm_parameter env ("/" ++ stack ++ "/gateway_url")%string).
    destruct (str_truthy stack) eqn:Es; cbn [opt_truthy andb].
    + destruct (str_truthy url) eqn:Eu; cbn [opt_truthy andb].
      * split.
        -- intros Ht. exists stack.
           split; [reflexivity|].
           split; [apply str_truthy_iff; exact Es|].
           split; apply str_truthy_iff; assumption.
        -- intros (stack' & Hs & _ & _ & Ht). apply str_truthy_iff. exact Ht.
      * split; [discriminate|].
        intros (stack' & Hs & _ & Hu & _). injection Hs as <-.
        apply str_truthy_iff in Hu. fold url in Hu. congruence.
    + split; [discriminate|].
      intros (stack' & Hs & Hne & _). injection Hs as <-.
      apply str_truthy_iff in Hne. congruence.
  - split; [discriminate|]. intros (stack & Hs & _). discriminate Hs.
Qed.

(** X12: the run allows the gateway wildcard exactly when it has a gateway
    server, which is exactly when [STACK_NAME], the URL stored for it and
    the access token are all non-empty; the gateway server is then the HTTP
    server at that URL with the token as its Bearer authorization.  The
    sandbox server, the four sandbox tools and [Task] are there in every run,
    and no tool is allowed twice. *)
Theorem gateway_is_allowed_exactly_when_configured (env : Env) (resume_id : PyValue) :
  let options := _build_options env resume_id in
  (In "mcp__gateway__*" (allowed_tools options)
   <-> exists server, In ("gateway", server) (mcp_servers options))
  /\ (In "mcp__gateway__*" (allowed_tools options)
      <-> exists stack,
            STACK_NAME env = Some stack
            /\ stack <> EmptyString
            /\ get_ssm_parameter env ("/" ++ stack ++ "/gateway_url")%string
               <> EmptyString
            /\ get_gateway_access_token env <> EmptyString)
  /\ (forall server,
        In ("gateway", server) (mcp_servers options) ->
        exists stack,
          STACK_NAME env = Some stack
          /\ server
             = HttpServer
                 (get_ssm_parameter env ("/" ++ stack ++ "/gateway_url")%string)
                 [("Authorization",
                   ("Bearer " ++ get_gateway_access_token env)%string)])
  /\ In ("codeint", code_int_mcp_server) (mcp_servers options)
  /\ incl ["mcp__codeint__execute_code"; "mcp__codeint__execute_command";
           "mcp__codeint__write_files"; "mcp__codeint__read_files"; "Task"]
       (allowed_tools options)
  /\ NoDup (allowed_tools options).
Proof.
  cbv zeta. unfold _build_options. cbn [allowed_tools mcp_servers].
  unfold build_allowed_tools, build_mcp_servers.
  pose proof (gateway_available_iff env) as Hiff.
  destruct (gateway_available env) eqn:Eg.
  - destruct (proj1 Hiff eq_refl) as (stack & Hs & Hne & Hu & Ht).
    assert (Eu : gateway_url env
                 = Some (get_ssm_parameter env ("/" ++ stack ++ "/gateway_url")%string)).
    { unfold gateway_url. rewrite Hs.
      apply str_truthy_iff in Hne. rewrite Hne. reflexivity. }
    assert (Ea : access_token env = Some (get_gateway_access_token env)).
    { unfold access_token. rewrite Eu. cbn [opt_truthy].
      apply str_truthy_iff in Hu. rewrite Hu. reflexivity. }
    rewrite Eu, Ea. cbn [unwrap].
    split; [|split; [|split; [|split; [|split]]]].
    + split; intros _; [eexists; right; left; reflexivity|is_in].
    + split; intros _; [exists stack; auto|is_in].
    + intros server [H|[H|[]]]; [discriminate H|].
      injection H as <-. exists stack. auto.
    + left. reflexivity.
    + intros t Ht'. cbn in Ht'.
      destruct Ht' as [<-|[<-|[<-|[<-|[<-|[]]]]]]; is_in.
    + repeat (apply NoDup_cons; [not_in|]). apply NoDup_nil.
  - split; [|split; [|split; [|split; [|split]]]].
    + split; [not_in|]. intros (server & [H|[]]). discriminate H.
    + split; [not_in|]. intros H. apply Hiff in H. discriminate H.
    + intros server [H|[]]. discriminate H.
    + left. reflexivity.
    + intros t Ht'. cbn in Ht'.
      destruct Ht' as [<-|[<-|[<-|[<-|[<-|[]]]]]]; is_in.
    + repeat (apply NoDup_cons; [not_in|]). apply NoDup_nil.
Qed.

(** C7 as stated fails: with the gateway available, the most a run ever
    allows, [Read] is a tool of the code analyst and no allowed tool of the
    run, so the tools of an entry are not all among the allowed tools. *)
Lemma code_analyst_tools_exceed_allowed_tools :
  ~ (forall name def,
        In (name, def) (agents (_build_options env_with_gateway PyNone)) ->
        incl (tools def) (allowed_tools (_build_options env_with_gateway PyNone))
        /\ ~ In "Task" (tools def)).
Proof.
  intros H.
  destruct (H "code-analyst" _ (or_introl eq_refl)) as (Hincl & _).
  specialize (Hincl "Read"). cbn in Hincl.
  intuition discriminate.
Qed.

(** ** The program on the scenarios *)

Lemma session_payload_decodes :
  json_decoder session_payload
  = Returns (PyDict [("code_int_session_id", PyStr "sess-42")]).
Proof. vm_compute. reflexivity. Qed.

Lemma session_payload_carries :
  carries_session json_decoder (text_result session_payload) (PyStr "sess-42").
Proof.
  unfold text_result.
  eapply carries_session_intro with (s := session_payload).
  - reflexivity.
  - vm_compute. reflexivity.
  - reflexivity.
  - reflexivity.
Defined.



(** C2 on scenario D, with a retry that fails as well. *)
Lemma resume_failure_is_retried_once_witness :
  let run :=
    main nat (scripted_client [process_failure; process_failure]) length_hash
      json_decoder (payload_with (PyStr "t1") (PyStr EmptyString))
      env_without_gateway 0%nat in
  map resume (opened (final run)) = [PyStr "t1"; PyNone]
  /\ raised run = Some (ProcessError "exit code 1")
  /\ world (final run) = 2%nat.
Proof.
  cbv zeta.
  destruct (resume_failure_is_retried_once nat
              (scripted_client [process_failure; process_failure]) length_hash
              json_decoder (payload_with (PyStr "t1") (PyStr EmptyString))
              env_without_gateway 0%nat (PyStr "run it") "exit code 1"
              eq_refl eq_refl eq_refl) as (Ho & _ & _ & Hr & Hf).
  rewrite Ho, Hr, Hf. repeat split.
Defined.


(** C4 on an empty resume token. *)
Lemma resume_failure_without_token_witness :
  let run :=
    main nat (scripted_client [process_failure; no_response]) length_hash
      json_decoder (payload_with (PyStr EmptyString) (PyStr EmptyString))
      env_without_gateway 0%nat in
  map resume (opened (final run)) = [PyStr EmptyString]
  /\ raised run = Some (ProcessError "exit code 1").
Proof.
  cbv zeta.
  destruct (resume_failure_without_token_propagates nat
              (scripted_client [process_failure; no_response]) length_hash
              json_decoder (payload_with (PyStr EmptyString) (PyStr EmptyString))
              env_without_gateway 0%nat (PyStr "run it") "exit code 1"
              eq_refl eq_refl eq_refl) as (_ & Hr & Ho).
  rewrite Ho, Hr. split; reflexivity.
Defined.

Lemma payloads_agree_but_session (token s1 s2 : PyValue) (k : string) :
  k <> "code_int_session_id" ->
  dict_lookup (payload_with token s1) k = dict_lookup (payload_with token s2) k.
Proof.
  intros Hk. cbn.
  destruct (String.eqb k "prompt"); [reflexivity|].
  destruct (String.eqb k "claude_session_id"); [reflexivity|].
  destruct (String.eqb_spec k "code_int_session_id"); [contradiction|reflexivity].
Defined.

(** C6 on the sessions [sess-1] and [sess-2]. *)
Lemma incoming_sandbox_session_is_ignored_witness :
  let client :=
    scripted_client
      [{| messages := tool_result_message session_payload :: scenario_A;
          failure := None |}] in
  yielded (main nat client length_hash json_decoder
             (payload_with PyNone (PyStr "sess-1")) env_without_gateway 0%nat)
  = yielded (main nat client length_hash json_decoder
               (payload_with PyNone (PyStr "sess-2")) env_without_gateway 0%nat).
Proof.
  cbv zeta.
  apply (incoming_sandbox_session_is_ignored nat
           (scripted_client
              [{| messages := tool_result_message session_payload :: scenario_A;
                  failure := None |}])
           length_hash json_decoder
           (payload_with PyNone (PyStr "sess-1"))
           (payload_with PyNone (PyStr "sess-2"))
           env_without_gateway 0%nat
           (payloads_agree_but_session PyNone (PyStr "sess-1") (PyStr "sess-2"))).
Defined.

(** C8 on scenario B. *)
Lemma tool_use_is_reported_witness :
  In (CurrentToolUse "execute_code" (PyDict [("code", PyStr "print(1)")]) "tool-abc")
     (yielded (process_message nat length_hash json_decoder
                 (AssistantMessage [TextBlock "running"; execute_code_block]) (initial_state [] 0%nat))).
Proof.
  apply (tool_use_is_reported nat length_hash json_decoder
           [TextBlock "running"; execute_code_block] (initial_state [] 0%nat)
           (Some "abc") "execute_code" (PyDict [("code", PyStr "print(1)")])).
  right. left. reflexivity.
Defined.




(** ** More runs of the program *)

(** X7 on a tool result whose text is the number 5. *)
Lemma translation_raises_only_from_json_loads_witness :
  let e := TypeError "the JSON object must be str, bytes or bytearray" in
  is_JSONDecodeError e = false
  /\ exists blocks tool_use_id d rest is_error,
       In (UserMessage (UserBlocks blocks))
          [AssistantMessage [TextBlock "hi"];
           UserMessage (UserBlocks [dict_result [("text", PyInt 5)]])]
       /\ In (ToolResultBlock tool_use_id (ContentList (PyDict d :: rest)) is_error)
            blocks
       /\ json_loads_value json_decoder (dict_get d "text" (PyStr EmptyString))
          = Raises e.
Proof.
  cbv zeta.
  apply (translation_raises_only_from_json_loads nat length_hash json_decoder
           [AssistantMessage [TextBlock "hi"];
            UserMessage (UserBlocks [dict_result [("text", PyInt 5)]])]
           (initial_state [] 0%nat)).
  reflexivity.
Defined.


(** X10 on a local that holds [sess-1] before [sess-42] arrives. *)
Lemma last_session_is_kept_witness :
  let st := set_local (Some (PyStr "sess-1")) (initial_state [] 0%nat) in
  local_code_int_session_id
    (final
       (for_each nat (process_message nat length_hash json_decoder)
          (scenario_A ++ [UserMessage (UserBlocks [text_result session_payload])])
          st))
  = Some (PyStr "sess-42")
  /\ raised
       (for_each nat (process_message nat length_hash json_decoder)
          (scenario_A ++ [UserMessage (UserBlocks [text_result session_payload])])
          st)
     = None.
Proof.
  cbv zeta.
  apply (last_session_is_kept nat length_hash json_decoder scenario_A
           (text_result session_payload) (PyStr "sess-42")
           (set_local (Some (PyStr "sess-1")) (initial_state [] 0%nat))).
  - reflexivity.
  - exact session_payload_carries.
Defined.

(** X5 on a full payload and on one with the prompt alone. *)
Lemma main_reads_prompt_and_resume_token_only_witness :
  let client := scripted_client [completed [AssistantMessage [TextBlock "hi"]] "r1"] in
  let p1 :=
    [("prompt", PyStr "run it"); ("runtimeSessionId", PyStr "abc");
     ("claude_session_id", PyNone); ("code_int_session_id", PyStr "sess-1")] in
  let p2 := [("prompt", PyStr "run it")] in
  yielded (main nat client length_hash json_decoder p1 env_without_gateway 0%nat)
  = yielded (main nat client length_hash json_decoder p2 env_without_gateway 0%nat).
Proof.
  cbv zeta.
  apply (main_reads_prompt_and_resume_token_only nat
           (scripted_client [completed [AssistantMessage [TextBlock "hi"]] "r1"])
           length_hash json_decoder
           [("prompt", PyStr "run it"); ("runtimeSessionId", PyStr "abc");
            ("claude_session_id", PyNone); ("code_int_session_id", PyStr "sess-1")]
           [("prompt", PyStr "run it")]
           env_without_gateway 0%nat eq_refl eq_refl).
Defined.

(** X4 on a run that says [hi] and completes as [r1]. *)
Lemma completed_run_ends_with_its_session_witness :
  let run :=
    main nat (scripted_client [completed [AssistantMessage [TextBlock "hi"]] "r1"])
      length_hash json_decoder (payload_with (PyStr "t1") (PyStr EmptyString))
      env_without_gateway 0%nat in
  yielded run = [Data "hi"; ClaudeSessionId "r1"]
  /\ raised run = None
  /\ map resume (opened (final run)) = [PyStr "t1"]
  /\ world (final run) = 1%nat.
Proof.
  cbv zeta.
  destruct (completed_run_ends_with_its_session nat
              (scripted_client [completed [AssistantMessage [TextBlock "hi"]] "r1"])
              length_hash json_decoder
              (payload_with (PyStr "t1") (PyStr EmptyString))
              env_without_gateway 0%nat 1%nat (PyStr "run it")
              [AssistantMessage [TextBlock "hi"]] "r1"
              eq_refl eq_refl eq_refl) as (Hy & Hr & Ho & Hw).
  rewrite Hy, Hr, Ho, Hw. repeat split.
Defined.

(** X2 on a first attempt that fails after a text. *)
Lemma first_attempt_events_are_kept_witness :
  let text := {| messages := [AssistantMessage [TextBlock "partial"]];
                 failure := Some (ProcessError "exit code 1") |} in
  let run :=
    main nat
      (scripted_client [text; completed [AssistantMessage [TextBlock "hi"]] "r2"])
      length_hash json_decoder (payload_with (PyStr "t1") (PyStr EmptyString))
      env_without_gateway 0%nat in
  yielded run = [Data "partial"] \/ yielded run = [Data "partial"] ++ [Data "hi"; ClaudeSessionId "r2"].
Proof.
  cbv zeta.
  apply (first_attempt_events_are_kept nat
           (scripted_client
              [{| messages := [AssistantMessage [TextBlock "partial"]];
                  failure := Some (ProcessError "exit code 1") |};
               completed [AssistantMessage [TextBlock "hi"]] "r2"])
           length_hash json_decoder (payload_with (PyStr "t1") (PyStr EmptyString))
           env_without_gateway 0%nat (PyStr "run it") eq_refl).
Defined.

(** X3 on two attempts that both fail. *)
Lemma process_error_with_token_comes_from_retry_witness :
  let run :=
    main nat (scripted_client [process_failure; process_failure]) length_hash
      json_decoder (payload_with (PyStr "t1") (PyStr EmptyString))
      env_with_gateway 0%nat in
  map resume (opened (final run)) = [PyStr "t1"; PyNone].
Proof.
  cbv zeta.
  destruct (process_error_with_token_comes_from_retry nat
              (scripted_client [process_failure; process_failure]) length_hash
              json_decoder (payload_with (PyStr "t1") (PyStr EmptyString))
              env_with_gateway 0%nat (PyStr "run it") "exit code 1"
              eq_refl eq_refl eq_refl) as (_ & _ & Ho).
  rewrite Ho. reflexivity.
Defined.

(** X13 on a first attempt that binds [sess-42] and fails, and a retry that
    delivers no session. *)
Lemma retry_starts_without_session_witness :
  let failing := {| messages := [tool_result_message session_payload];
                    failure := Some (ProcessError "exit code 1") |} in
  let run :=
    main nat (scripted_client [failing; completed [] "r2"]) length_hash
      json_decoder (payload_with (PyStr "t1") (PyStr EmptyString))
      env_without_gateway 0%nat in
  local_code_int_session_id (final run) = None.
Proof.
  cbv zeta.
  destruct (retry_starts_without_session nat
              (scripted_client
                 [{| messages := [tool_result_message session_payload];
                     failure := Some (ProcessError "exit code 1") |};
                  completed [] "r2"])
              length_hash json_decoder
              (payload_with (PyStr "t1") (PyStr EmptyString))
              env_without_gateway 0%nat 2%nat (PyStr "run it") "exit code 1"
              (completed [] "r2") eq_refl eq_refl eq_refl eq_refl)
    as [H|(m & v & [Hm|[]] & (blocks & b & Heq & _) & _)].
  - exact H.
  - subst m. discriminate Heq.
Defined.
